(** * neo4j-movie-chatbot: the conversational query engine

    A shallow embedding of [scripts/chatbot.py] ([MovieChatbot]),
    [scripts/gemini_chatbot.py] ([GeminiMovieChatbot]) and the [/chat] route
    of [app.py], with the properties the specification states about them.

    Conventions of the embedding.
    - A Python [str] is a Rocq [string] holding its UTF-8 encoding, so that
      the literals of the source are the literals of this file.
    - A method that reads or appends to [self.history], calls the language
      model or the graph store, or may raise, is a computation in the monad
      [M]: it takes the state (history and the trace of external calls made
      so far) and returns a result or a raised exception, with the state
      reached.  The state is kept when an exception is raised, as the object
      keeps its history in Python.
    - The language model and the graph store are oracles of a [World]: the
      theorems quantify over every world. *)

From Stdlib Require Import String Ascii List ZArith Lia Bool.
From Stdlib Require Import DecimalString.
Import ListNotations.
Open Scope string_scope.
Open Scope list_scope.

(** ** Python strings *)

Module PyStr.

Definition code (c : ascii) : N := N_of_ascii c.

(** [str.isspace] on the characters encoded by one, two and three bytes:
    U+0009..U+000D, U+001C..U+0020; U+0085, U+00A0; U+1680, U+2000..U+200A,
    U+2028, U+2029, U+202F, U+205F, U+3000. *)
Definition is_ws1 (a : ascii) : bool :=
  let n := code a in
  ((9 <=? n) && (n <=? 13) || (28 <=? n) && (n <=? 32))%N.

Definition is_ws2 (a b : ascii) : bool :=
  ((code a =? 194) && ((code b =? 133) || (code b =? 160)))%N.

Definition is_ws3 (a b c : ascii) : bool :=
  let x := code a in let y := code b in let z := code c in
  ((x =? 225) && (y =? 154) && (z =? 128)
   || (x =? 226) && (y =? 128)
      && ((128 <=? z) && (z <=? 138) || (z =? 168) || (z =? 169) || (z =? 175))
   || (x =? 226) && (y =? 129) && (z =? 159)
   || (x =? 227) && (y =? 128) && (z =? 128))%N.

Fixpoint lstrip (s : string) : string :=
  match s with
  | EmptyString => EmptyString
  | String a r1 =>
      if is_ws1 a then lstrip r1 else
      match r1 with
      | EmptyString => s
      | String b r2 =>
          if is_ws2 a b then lstrip r2 else
          match r2 with
          | EmptyString => s
          | String c r3 => if is_ws3 a b c then lstrip r3 else s
          end
      end
  end.

Fixpoint rev_onto (s acc : string) : string :=
  match s with
  | EmptyString => acc
  | String a r => rev_onto r (String a acc)
  end.

Definition reverse (s : string) : string := rev_onto s EmptyString.

(** [lstrip] on a reversed string: the bytes of a character come last
    byte first. *)
Fixpoint lstrip_rev (s : string) : string :=
  match s with
  | EmptyString => EmptyString
  | String a r1 =>
      if is_ws1 a then lstrip_rev r1 else
      match r1 with
      | EmptyString => s
      | String b r2 =>
          if is_ws2 b a then lstrip_rev r2 else
          match r2 with
          | EmptyString => s
          | String c r3 => if is_ws3 c b a then lstrip_rev r3 else s
          end
      end
  end.

Definition rstrip (s : string) : string := reverse (lstrip_rev (reverse s)).

(** [s.strip()] *)
Definition strip (s : string) : string := rstrip (lstrip s).

(** [s.startswith(p)] *)
Definition startswith (s p : string) : bool := String.prefix p s.

(** [sep.join(parts)] *)
Definition join (sep : string) (parts : list string) : string :=
  String.concat sep parts.

(** Line boundaries of [str.splitlines]: \n, \v, \f, \r, \x1c, \x1d, \x1e
    (one byte), U+0085 (two bytes), U+2028 and U+2029 (three bytes); \r\n is
    one boundary. *)
Definition is_nl1 (a : ascii) : bool :=
  let n := code a in
  ((10 <=? n) && (n <=? 13) || (28 <=? n) && (n <=? 30))%N.

Definition is_nl2 (a b : ascii) : bool :=
  ((code a =? 194) && (code b =? 133))%N.

Definition is_nl3 (a b c : ascii) : bool :=
  ((code a =? 226) && (code b =? 128)
   && ((code c =? 168) || (code c =? 169)))%N.

(** [cur] is the line being read, last character first. *)
Fixpoint splitlines_from (cur : string) (s : string) : list string :=
  match s with
  | EmptyString =>
      match cur with
      | EmptyString => []
      | _ => [reverse cur]
      end
  | String a r1 =>
      if is_nl1 a then
        match r1 with
        | String b r2 =>
            if ((code a =? 13) && (code b =? 10))%N
            then reverse cur :: splitlines_from EmptyString r2
            else reverse cur :: splitlines_from EmptyString r1
        | EmptyString => reverse cur :: splitlines_from EmptyString r1
        end
      else
        match r1 with
        | String b r2 =>
            if is_nl2 a b then reverse cur :: splitlines_from EmptyString r2
            else
              match r2 with
              | String c r3 =>
                  if is_nl3 a b c
                  then reverse cur :: splitlines_from EmptyString r3
                  else splitlines_from (String a cur) r1
              | EmptyString => splitlines_from (String a cur) r1
              end
        | EmptyString => splitlines_from (String a cur) r1
        end
  end.

(** [s.splitlines()] *)
Definition splitlines (s : string) : list string :=
  splitlines_from EmptyString s.

(** [str(n)] for an [int]. *)
Definition of_Z (z : Z) : string := NilZero.string_of_int (Z.to_int z).

End PyStr.

(** ** Python values decoded from JSON *)

(** What [json.loads] builds: [None], [bool], [int], [float], [str], [list]
    and [dict].  A [dict] keeps its keys in insertion order.  A [float] is
    kept as the text of its literal: the code never computes with one. *)
#[warnings="-register-all"]
Inductive PyVal : Type :=
| PNone
| PBool (b : bool)
| PInt (z : Z)
| PFloat (literal : string)
| PStr (s : string)
| PList (items : list PyVal)
| PDict (members : list (string * PyVal)).

Module Dict.

Fixpoint lookup {A} (k : string) (d : list (string * A)) : option A :=
  match d with
  | [] => None
  | (k', v) :: rest => if String.eqb k k' then Some v else lookup k rest
  end.

(** [d[k] = v]: an existing key keeps its place. *)
Fixpoint set {A} (d : list (string * A)) (k : string) (v : A)
  : list (string * A) :=
  match d with
  | [] => [(k, v)]
  | (k', v') :: rest =>
      if String.eqb k k' then (k, v) :: rest else (k', v') :: set rest k v
  end.

End Dict.

(** An exception: its class and [str(e)].  Only subclasses of [Exception]
    are modelled. *)
Record Exn := { exn_class : string; exn_msg : string }.

Module Json.

Import PyStr.

Definition ch_is (c : ascii) (lit : string) : bool :=
  String.eqb (String c EmptyString) lit.

(** The double quote. *)
Definition is_quote (c : ascii) : bool := (code c =? 34)%N.

Definition is_digit (c : ascii) : bool :=
  ((48 <=? code c) && (code c <=? 57))%N.

Definition hex_val (c : ascii) : option N :=
  let n := code c in
  if ((48 <=? n) && (n <=? 57))%N then Some (n - 48)%N
  else if ((97 <=? n) && (n <=? 102))%N then Some (n - 87)%N
  else if ((65 <=? n) && (n <=? 70))%N then Some (n - 55)%N
  else None.

Definition hex4 (a b c d : ascii) : option N :=
  match hex_val a, hex_val b, hex_val c, hex_val d with
  | Some x, Some y, Some z, Some w => Some (((x * 16 + y) * 16 + z) * 16 + w)%N
  | _, _, _, _ => None
  end.

Definition byte (n : N) : ascii := ascii_of_N n.

(** The UTF-8 bytes of a code point (a lone surrogate is encoded like any
    other three-byte code point). *)
Definition utf8 (cp : N) : string :=
  if (cp <? 128)%N then String (byte cp) ""
  else if (cp <? 2048)%N then
    String (byte (192 + cp / 64)) (String (byte (128 + cp mod 64)) "")
  else if (cp <? 65536)%N then
    String (byte (224 + cp / 4096))
      (String (byte (128 + (cp / 64) mod 64))
         (String (byte (128 + cp mod 64)) ""))
  else
    String (byte (240 + cp / 262144))
      (String (byte (128 + (cp / 4096) mod 64))
         (String (byte (128 + (cp / 64) mod 64))
            (String (byte (128 + cp mod 64)) ""))).

(** The JSON whitespace: space, \t, \n, \r. *)
Definition is_json_ws (c : ascii) : bool :=
  let n := code c in ((n =? 32) || (n =? 9) || (n =? 10) || (n =? 13))%N.

Fixpoint skip_ws (s : string) : string :=
  match s with
  | String c r => if is_json_ws c then skip_ws r else s
  | EmptyString => s
  end.

Definition simple_escape (e : ascii) : option ascii :=
  if is_quote e then Some e
  else if ch_is e "\" then Some e
  else if ch_is e "/" then Some e
  else if ch_is e "b" then Some (byte 8)
  else if ch_is e "f" then Some (byte 12)
  else if ch_is e "n" then Some (byte 10)
  else if ch_is e "r" then Some (byte 13)
  else if ch_is e "t" then Some (byte 9)
  else None.

(** The body of a string literal, after its opening quote; [acc] holds the
    decoded text so far, last byte first.  Control characters are refused
    (strict mode); a high surrogate followed by a low one is one code
    point. *)
Fixpoint scanstring (acc : string) (s : string) : option (string * string) :=
  match s with
  | EmptyString => None
  | String c r =>
      if is_quote c then Some (reverse acc, r)
      else if ch_is c "\" then
        match r with
        | EmptyString => None
        | String e r1 =>
            if ch_is e "u" then
              match r1 with
              | String h1 (String h2 (String h3 (String h4 r2))) =>
                  match hex4 h1 h2 h3 h4 with
                  | None => None
                  | Some cp =>
                      if ((55296 <=? cp) && (cp <=? 56319))%N then
                        match r2 with
                        | String b (String u (String l1 (String l2
                            (String l3 (String l4 r3))))) =>
                            if ch_is b "\" && ch_is u "u" then
                              match hex4 l1 l2 l3 l4 with
                              | None => None
                              | Some lo =>
                                  if ((56320 <=? lo) && (lo <=? 57343))%N
                                  then
                                    scanstring
                                      (rev_onto
                                         (utf8 (65536 + (cp - 55296) * 1024
                                                + (lo - 56320))) acc) r3
                                  else scanstring (rev_onto (utf8 cp) acc) r2
                              end
                            else scanstring (rev_onto (utf8 cp) acc) r2
                        | _ => scanstring (rev_onto (utf8 cp) acc) r2
                        end
                      else scanstring (rev_onto (utf8 cp) acc) r2
                  end
              | _ => None
              end
            else
              match simple_escape e with
              | Some x => scanstring (String x acc) r1
              | None => None
              end
        end
      else if (code c <? 32)%N then None
      else scanstring (String c acc) r
  end.

Fixpoint span_digits (s : string) : string * string :=
  match s with
  | String c r =>
      if is_digit c then let (ds, rest) := span_digits r in (String c ds, rest)
      else (EmptyString, s)
  | EmptyString => (EmptyString, EmptyString)
  end.

Fixpoint Z_of_digits_from (acc : Z) (ds : string) : Z :=
  match ds with
  | String c r => Z_of_digits_from (acc * 10 + Z.of_N (code c - 48)) r
  | EmptyString => acc
  end.

Definition Z_of_digits (ds : string) : Z := Z_of_digits_from 0 ds.

Record number_parts := {
  np_neg : bool;
  np_int : string;
  np_frac : option string;
  np_exp : option Z
}.

(** The number grammar of the decoder, at the start of [s]: an optional
    minus sign; the integer part, a single 0 or a non-zero digit followed by
    digits; an optional fraction, a point and at least one digit; an optional
    exponent, e or E, an optional sign and at least one digit. *)
Definition match_number (s : string) : option (number_parts * string) :=
  let (neg, s1) :=
    match s with
    | String c r => if ch_is c "-" then (true, r) else (false, s)
    | EmptyString => (false, s)
    end in
  let (ds, s2) := span_digits s1 in
  match ds with
  | EmptyString => None
  | String d0 dr =>
      let (ipart, s3) :=
        if ch_is d0 "0" then ("0", (dr ++ s2)%string) else (ds, s2) in
      let (frac, s4) :=
        match s3 with
        | String p r =>
            if ch_is p "." then
              match span_digits r with
              | (EmptyString, _) => (None, s3)
              | (fs, rest) => (Some fs, rest)
              end
            else (None, s3)
        | EmptyString => (None, s3)
        end in
      let (ex, s5) :=
        match s4 with
        | String e r =>
            if ch_is e "e" || ch_is e "E" then
              let (sgn, r1) :=
                match r with
                | String g r' =>
                    if ch_is g "-" then (-1, r')
                    else if ch_is g "+" then (1, r')
                    else (1, r)
                | EmptyString => (1, r)
                end in
              match span_digits r1 with
              | (EmptyString, _) => (None, s4)
              | (es, rest) => (Some (sgn * Z_of_digits es), rest)
              end
            else (None, s4)
        | EmptyString => (None, s4)
        end in
      Some ({| np_neg := neg; np_int := ipart; np_frac := frac; np_exp := ex |},
            s5)
  end%Z.

(** The text [s] without its suffix [rest]. *)
Definition consumed (s rest : string) : string :=
  substring 0 (String.length s - String.length rest) s.

(** The interpreter's limits that the decoder meets.
    - [int_max_str_digits]: [sys.get_int_max_str_digits()], the longest
      integer literal [int] converts: 4300 unless the interpreter is
      configured otherwise, 0 where there is no limit;
    - [depth]: how many containers, one inside the other, the decoder can
      enter before the interpreter's recursion limit is reached. *)
Record Limits := { int_max_str_digits : nat; depth : nat }.

(** What a step of the decoder comes to: a result, a
    [json.JSONDecodeError], or an exception of another class. *)
Inductive Outcome (A : Type) : Type :=
| Decoded (a : A)
| Malformed
| Raised (e : Exn).
Arguments Decoded {A} a.
Arguments Malformed {A}.
Arguments Raised {A} e.

(** The [ValueError] of [int] for a literal of [digits] digits. *)
Definition digits_error (limit digits : nat) : Exn :=
  {| exn_class := "ValueError";
     exn_msg :=
       ("Exceeds the limit (" ++ of_Z (Z.of_nat limit)
        ++ " digits) for integer string conversion: value has "
        ++ of_Z (Z.of_nat digits)
        ++ " digits; use sys.set_int_max_str_digits() to increase the limit")%string |}.

(** The [RecursionError] of the scanner on entering one container too many;
    [kind] is [object] or [array]. *)
Definition RecursionError (kind : string) : Exn :=
  {| exn_class := "RecursionError";
     exn_msg :=
       ("maximum recursion depth exceeded while decoding a JSON " ++ kind
        ++ " from a unicode string")%string |}.

(** Whether [int] refuses a literal of [digits] digits: literals of up to
    640 digits are always converted. *)
Definition too_many_digits (lim : Limits) (digits : nat) : bool :=
  if (0 <? int_max_str_digits lim)%nat then
    if (640 <? digits)%nat then (int_max_str_digits lim <? digits)%nat
    else false
  else false.

(** A number at the start of [s].  A literal with a fraction or an exponent
    is converted by [float], which has no limit; any other by [int]. *)
Definition scan_number (lim : Limits) (s : string)
  : Outcome (PyVal * string) :=
  match match_number s with
  | None => Malformed
  | Some (p, rest) =>
      match np_frac p, np_exp p with
      | None, None =>
          let digits := String.length (np_int p) in
          if too_many_digits lim digits
          then Raised (digits_error (int_max_str_digits lim) digits)
          else
            let n := Z_of_digits (np_int p) in
            Decoded (PInt (if np_neg p then (- n)%Z else n), rest)
      | _, _ => Decoded (PFloat (consumed s rest), rest)
      end
  end.

Definition literal (lit : string) (v : PyVal) (s : string)
  : Outcome (PyVal * string) :=
  if String.prefix lit s
  then Decoded (v, substring (String.length lit) (String.length s) s)
  else Malformed.

(** One JSON term at the start of [s].  [budget] is the number of
    containers that can still be entered: the scanner checks the
    interpreter's recursion limit each time it meets an opening brace or
    bracket, before it reads what follows. *)
Fixpoint scan_once (lim : Limits) (budget : nat) (s : string) {struct budget}
  : Outcome (PyVal * string) :=
  match s with
  | EmptyString => Malformed
  | String c r =>
      if is_quote c then
        match scanstring "" r with
        | Some (t, r') => Decoded (PStr t, r')
        | None => Malformed
        end
      else if ch_is c "{" then
        match budget with
        | O => Raised (RecursionError "object")
        | S n =>
            let fix members (k : nat) (acc : list (string * PyVal))
                            (s : string) {struct k}
              : Outcome (PyVal * string) :=
              match k with
              | O => Malformed
              | S k' =>
                  match s with
                  | EmptyString => Malformed
                  | String q r0 =>
                      if is_quote q then
                        match scanstring "" r0 with
                        | None => Malformed
                        | Some (key, r1) =>
                            match skip_ws r1 with
                            | EmptyString => Malformed
                            | String colon r2 =>
                                if ch_is colon ":" then
                                  match scan_once lim n (skip_ws r2) with
                                  | Malformed => Malformed
                                  | Raised e => Raised e
                                  | Decoded (v, r3) =>
                                      let acc' := Dict.set acc key v in
                                      match skip_ws r3 with
                                      | EmptyString => Malformed
                                      | String d r4 =>
                                          if ch_is d "}" then
                                            Decoded (PDict acc', r4)
                                          else if ch_is d "," then
                                            members k' acc' (skip_ws r4)
                                          else Malformed
                                      end
                                  end
                                else Malformed
                            end
                        end
                      else Malformed
                  end
              end in
            match skip_ws r with
            | EmptyString => Malformed
            | String d r' =>
                if ch_is d "}" then Decoded (PDict [], r')
                else members (String.length r) [] (String d r')
            end
        end
      else if ch_is c "[" then
        match budget with
        | O => Raised (RecursionError "array")
        | S n =>
            let fix elements (k : nat) (acc : list PyVal) (s : string)
                             {struct k} : Outcome (PyVal * string) :=
              match k with
              | O => Malformed
              | S k' =>
                  match scan_once lim n s with
                  | Malformed => Malformed
                  | Raised e => Raised e
                  | Decoded (v, r1) =>
                      match skip_ws r1 with
                      | EmptyString => Malformed
                      | String d r2 =>
                          if ch_is d "]" then
                            Decoded (PList (rev (v :: acc)), r2)
                          else if ch_is d "," then
                            elements k' (v :: acc) (skip_ws r2)
                          else Malformed
                      end
                  end
              end in
            match skip_ws r with
            | EmptyString => Malformed
            | String d r' =>
                if ch_is d "]" then Decoded (PList [], r')
                else elements (String.length r) [] (String d r')
            end
        end
      else if ch_is c "n" then literal "null" PNone s
      else if ch_is c "t" then literal "true" (PBool true) s
      else if ch_is c "f" then literal "false" (PBool false) s
      else if ch_is c "N" then literal "NaN" (PFloat "NaN") s
      else if ch_is c "I" then literal "Infinity" (PFloat "Infinity") s
      else
        match literal "-Infinity" (PFloat "-Infinity") s with
        | Decoded res => Decoded res
        | _ => scan_number lim s
        end
  end.

(** [json.loads(s)] under the interpreter's limits [lim].  [Malformed] is
    [json.JSONDecodeError]; [Raised e] is an exception that is not one: the
    [ValueError] of [int] for an integer literal of too many digits, or the
    [RecursionError] of the scanner for containers nested too deep.  The
    text is read from left to right, and the first of these to occur is the
    outcome. *)
Definition loads (lim : Limits) (s : string) : Outcome PyVal :=
  match scan_once lim (depth lim) (skip_ws s) with
  | Decoded (v, rest) =>
      match skip_ws rest with
      | EmptyString => Decoded v
      | _ => Malformed
      end
  | Malformed => Malformed
  | Raised e => Raised e
  end.

(** Whether the [float] a literal denotes is zero: all digits zero, or a
    value that rounds to zero, at most 2^-1075. *)
Definition float_is_zero (lit : string) : bool :=
  match match_number lit with
  | None => false
  | Some (p, _) =>
      let fs := match np_frac p with Some fs => fs | None => "" end in
      let m := Z_of_digits (np_int p ++ fs)%string in
      let e := ((match np_exp p with Some e => e | None => 0 end)
                - Z.of_nat (String.length fs))%Z in
      if (m =? 0)%Z then true
      else if (0 <=? e)%Z then false
      else if (Z.of_nat (String.length (np_int p ++ fs)%string) + 324 <=? - e)%Z
      then true
      else (m * 2 ^ 1075 <=? 10 ^ (- e))%Z
  end.

End Json.

(** ** Exceptions, the session state and the monad of the methods *)

Inductive Result (A : Type) : Type :=
| Ok (a : A)
| Raise (e : Exn).
Arguments Ok {A} a.
Arguments Raise {A} e.

(** One entry of [self.history]: [{"role": ..., "content": ...}]. *)
Record Message := { role : string; content : string }.

(** A value of a column of a store record, by what [chat] observes of it.
    [Plain x] has no [items] attribute; [Items props] has one (a node, a
    relationship or a map) and [props] is what [.items()] yields, in order.
    [SOther text] is any other object without [items], [text] being what
    formatting it gives. *)
Inductive Scalar : Type :=
| SNone
| SBool (b : bool)
| SInt (z : Z)
| SFloat (repr : string)
| SStr (s : string)
| SOther (text : string).

Inductive Value : Type :=
| Plain (x : Scalar)
| Items (props : list (string * Scalar)).

(** A record of the store: its columns in the order the store returns them. *)
Definition Row : Type := list (string * Value).

(** What an f-string renders for [{x}]. *)
Definition py_str (x : Scalar) : string :=
  match x with
  | SNone => "None"
  | SBool true => "True"
  | SBool false => "False"
  | SInt z => PyStr.of_Z z
  | SFloat r => r
  | SStr s => s
  | SOther t => t
  end.

(** The calls that leave the process, in the order they are made. *)
Inductive Event : Type :=
| EvCompletion (messages : list Message)
| EvGenerate (contents : string)
| EvSessionOpen
| EvRun (query params : PyVal)
| EvSessionClose
| EvLogError (msg : string).

(** The collaborators.  Each oracle sees the calls made so far, so a model
    or a store may answer the same request differently over time.
    - [completion]: [client.chat.completions.create(model, messages)]
      followed by [.choices[0].message.content];
    - [generate_content]: [client.models.generate_content(model, contents)]
      followed by [.text];
    - [run]: the call [session.run(query, **params)], the unpacking of
      [params] included, and the reading of all its records;
    - [interpreter]: the limits of the interpreter the program runs in, as
      [json.loads] meets them. *)
Record World := {
  completion : list Event -> list Message -> Result string;
  generate_content : list Event -> string -> Result string;
  run : list Event -> PyVal -> PyVal -> Result (list Row);
  interpreter : Json.Limits
}.

Record State := { history : list Message; trace : list Event }.

Definition M (A : Type) : Type := State -> Result A * State.

Definition ret {A} (a : A) : M A := fun st => (Ok a, st).

Definition bind {A B} (c : M A) (k : A -> M B) : M B :=
  fun st =>
    match c st with
    | (Ok a, st') => k a st'
    | (Raise e, st') => (Raise e, st')
    end.

Notation "x <- c ;; k" := (bind c (fun x => k))
  (at level 61, c at next level, right associativity).
Notation "c ;;; k" := (bind c (fun _ => k))
  (at level 61, right associativity).

Definition lift {A} (r : Result A) : M A := fun st => (r, st).

(** [self.history.append(m)] *)
Definition append_history (m : Message) : M unit :=
  fun st => (Ok tt, {| history := history st ++ [m]; trace := trace st |}).

Definition get_history : M (list Message) := fun st => (Ok (history st), st).

Definition emit (e : Event) : M unit :=
  fun st => (Ok tt, {| history := history st; trace := trace st ++ [e] |}).

(** A call to a collaborator: recorded, then answered by the oracle from
    the calls made before it. *)
Definition call {A} (e : Event) (oracle : list Event -> Result A) : M A :=
  fun st =>
    (oracle (trace st),
     {| history := history st; trace := trace st ++ [e] |}).

(** [with self.driver.session(database=...) as session: body]: the session
    is released on every exit path. *)
Definition with_session {A} (body : M A) : M A :=
  fun st =>
    let (r, st') := (emit EvSessionOpen ;;; body) st in
    (r, {| history := history st'; trace := trace st' ++ [EvSessionClose] |}).

(** ** Python helpers used by the methods *)

Definition nl : string := String (ascii_of_N 10) "".

(** A text given line by line. *)
Definition text (lines : list string) : string := PyStr.join nl lines.

Definition fence : string := "```".

Definition IndexError : Exn :=
  {| exn_class := "IndexError"; exn_msg := "list index out of range" |}.

(** [l[i]], with Python's negative indices. *)
Definition index {A} (l : list A) (i : Z) : Result A :=
  let n := Z.of_nat (length l) in
  let j := if (i <? 0)%Z then (i + n)%Z else i in
  if ((0 <=? j) && (j <? n))%Z then
    match nth_error l (Z.to_nat j) with
    | Some x => Ok x
    | None => Raise IndexError
    end
  else Raise IndexError.

(** [l[1:]] *)
Definition drop_first {A} (l : list A) : list A := skipn 1 l.

(** [l[:-1]] *)
Definition drop_last {A} (l : list A) : list A := firstn (length l - 1) l.

Definition type_name (v : PyVal) : string :=
  match v with
  | PNone => "NoneType"
  | PBool _ => "bool"
  | PInt _ => "int"
  | PFloat _ => "float"
  | PStr _ => "str"
  | PList _ => "list"
  | PDict _ => "dict"
  end.

Definition AttributeError (v : PyVal) (attr : string) : Exn :=
  {| exn_class := "AttributeError";
     exn_msg := "'" ++ type_name v ++ "' object has no attribute '"
                ++ attr ++ "'" |}.

(** [d.get(key, default)]; only a [dict] has [get]. *)
Definition py_get (d : PyVal) (key : string) (default : PyVal)
  : Result PyVal :=
  match d with
  | PDict members =>
      match Dict.lookup key members with
      | Some v => Ok v
      | None => Ok default
      end
  | _ => Raise (AttributeError d "get")
  end.

(** Truth value of an object, as [if not q] tests it. *)
Definition truthy (v : PyVal) : bool :=
  match v with
  | PNone => false
  | PBool b => b
  | PInt z => negb (z =? 0)%Z
  | PFloat lit => negb (Json.float_is_zero lit)
  | PStr s => negb (String.eqb s "")
  | PList items => match items with [] => false | _ => true end
  | PDict members => match members with [] => false | _ => true end
  end.

(** [v == 'lit'] for a string literal. *)
Definition eq_str (v : PyVal) (lit : string) : bool :=
  match v with
  | PStr s => String.eqb s lit
  | _ => false
  end.

(** ** scripts/chatbot.py: class MovieChatbot *)

Module MovieChatbot.

Import PyStr.

(** [self.schema] *)
Definition schema : string :=
  text
    [ "Given the Neo4j database schema with the following definitions:";
      "- Person nodes have properties: person_id (unique), name, birth_year, "
      ++ "profession, nationality";
      "- Movie nodes have properties: movie_id (unique), title, year, genre, "
      ++ "director, rating";
      "- Relationships: ACTED_IN has property character_name; DIRECTED has "
      ++ "no extra properties";
      "If user entity names have typos or inconsistent casing, correct them "
      ++ "to the nearest valid entries before extracting. "
      ++ "Extract 'intent' and 'entities' from the user question and respond "
      ++ "strictly with a JSON object containing 'intent' and 'entities'." ]%string.

Definition actor_query : string :=
  text
    [ "";
      "            MATCH (p:Person {name: $actor_name})-[:ACTED_IN]->(m:Movie)";
      "            RETURN m.title, m.year, m.genre, m.rating";
      "            ORDER BY m.year";
      "            " ].

Definition director_query : string :=
  text
    [ "";
      "            MATCH (p:Person {name: $director_name})-[:DIRECTED]->(m:Movie)";
      "            RETURN m.title, m.year, m.genre, m.rating";
      "            ORDER BY m.year";
      "            " ].

Definition genre_query : string :=
  text
    [ "";
      "            MATCH (m:Movie {genre: $genre})";
      "            RETURN m.title, m.year, m.director, m.rating";
      "            ORDER BY m.rating DESC";
      "            " ].

Definition top_rated_query : string :=
  text
    [ "";
      "            MATCH (m:Movie)";
      "            RETURN m.title, m.year, m.genre, m.rating";
      "            ORDER BY m.rating DESC";
      "            LIMIT $limit";
      "            " ].

Section Methods.

Variable w : World.

(** The four data access methods: a session, one query with one named
    parameter, all records read. *)
Definition run_in_session (query : string) (param : string) (v : PyVal)
  : M (list Row) :=
  with_session
    (let q := PStr query in
     let p := PDict [(param, v)] in
     call (EvRun q p) (fun tr => run w tr q p)).

Definition search_movies_by_actor (actor_name : PyVal) : M (list Row) :=
  run_in_session actor_query "actor_name" actor_name.

Definition search_movies_by_director (director_name : PyVal) : M (list Row) :=
  run_in_session director_query "director_name" director_name.

Definition search_movies_by_genre (genre : PyVal) : M (list Row) :=
  run_in_session genre_query "genre" genre.

Definition get_top_rated_movies (limit : PyVal) : M (list Row) :=
  run_in_session top_rated_query "limit" limit.

(** The fence stripping of [understand_question]: each step tests that the
    list of lines is not empty before it indexes it. *)
Definition strip_fences_guarded (raw : string) : M string :=
  if startswith raw fence then
    let lines := splitlines raw in
    lines <-
      match lines with
      | [] => ret lines
      | _ :: _ =>
          first <- lift (index lines 0) ;;
          ret (if startswith first fence then drop_first lines else lines)
      end ;;
    lines <-
      match lines with
      | [] => ret lines
      | _ :: _ =>
          last <- lift (index lines (-1)) ;;
          ret (if startswith last fence then drop_last lines else lines)
      end ;;
    ret (join nl lines)
  else ret raw.

Definition intent_request (user_question : string) : list Message :=
  [ {| role := "system"; content := schema |};
    {| role := "user"; content := ("Question: " ++ user_question)%string |} ].

Definition understand_question (user_question : string) : M PyVal :=
  let messages := intent_request user_question in
  reply <- call (EvCompletion messages) (fun tr => completion w tr messages) ;;
  let raw := strip reply in
  raw <- strip_fences_guarded raw ;;
  match Json.loads (interpreter w) raw with
  | Json.Decoded v => ret v
  | Json.Malformed =>
      emit (EvLogError
              ("Failed to parse AI response as JSON: " ++ raw)%string) ;;;
      ret (PDict [])
  | Json.Raised e => lift (Raise e)
  end.

Definition search_database (search_info : PyVal) : M (list Row) :=
  intent <- lift (py_get search_info "intent" PNone) ;;
  entities <- lift (py_get search_info "entities" (PDict [])) ;;
  if eq_str intent "search_movies_by_actor" then
    actor_name <- lift (py_get entities "actor_name" PNone) ;;
    search_movies_by_actor actor_name
  else if eq_str intent "search_movies_by_director" then
    director_name <- lift (py_get entities "director_name" PNone) ;;
    search_movies_by_director director_name
  else if eq_str intent "search_movies_by_genre" then
    genre <- lift (py_get entities "genre" PNone) ;;
    search_movies_by_genre genre
  else if eq_str intent "get_top_rated_movies" then
    limit <- lift (py_get entities "limit" (PInt 5)) ;;
    get_top_rated_movies limit
  else ret [].

(** The fence stripping of [generate_cypher]: no test before indexing. *)
Definition strip_fences (raw : string) : M string :=
  if startswith raw fence then
    let parts := splitlines raw in
    first <- lift (index parts 0) ;;
    let parts := if startswith first fence then drop_first parts else parts in
    last <- lift (index parts (-1)) ;;
    let parts := if startswith last fence then drop_last parts else parts in
    ret (join nl parts)
  else ret raw.

Definition cypher_prompt (user_question : string) : string :=
  (text
     [ "Given the Neo4j database schema with the following definitions:";
       "- Person(person_id, name, birth_year, profession, nationality)";
       "- Movie(movie_id, title, year, genre, director, rating)";
       "- Relationships: ACTED_IN(character_name), DIRECTED(no properties)";
       "Generate a Cypher query and JSON parameters to answer: '" ]
   ++ user_question ++ "'. "
   ++ "Respond strictly with a JSON object containing 'query' and 'params'.")%string.

Definition generate_cypher (user_question : string) : M PyVal :=
  let messages :=
    [ {| role := "system"; content := cypher_prompt user_question |} ] in
  reply <- call (EvCompletion messages) (fun tr => completion w tr messages) ;;
  let raw := strip reply in
  raw <- strip_fences raw ;;
  match Json.loads (interpreter w) raw with
  | Json.Decoded v => ret v
  | Json.Malformed =>
      emit (EvLogError
              ("Failed to parse Cypher generation response: " ++ raw)%string) ;;;
      ret (PDict [])
  | Json.Raised e => lift (Raise e)
  end.

(** The lines of results built by [chat], loop by loop: [parts] and
    [raw_lines] grow by [append]. *)
Definition record_parts (record : Row) : list string :=
  fold_left
    (fun parts kv =>
       let '(key, value) := kv in
       match value with
       | Items props =>
           fold_left
             (fun parts pv =>
                let '(prop, val) := pv in
                parts ++ [(prop ++ ": " ++ py_str val)%string])
             props parts
       | Plain x => parts ++ [(key ++ ": " ++ py_str x)%string]
       end)
    record [].

Definition raw_text (user_question : string) (records : list Row) : string :=
  let raw_lines :=
    fold_left
      (fun raw_lines record =>
         raw_lines ++ [("- " ++ join ", " (record_parts record))%string])
      records
      [("Results for '" ++ user_question ++ "':")%string] in
  join nl raw_lines.

Definition system_msg : string :=
  ("You are ChatGPT, an AI assistant specialized in answering movie "
   ++ "database queries. "
   ++ "Use the provided query results to answer the user question concisely "
   ++ "and clearly, in markdown format when appropriate.")%string.

Definition user_msg (user_question : string) (raw_text : string) : string :=
  text
    [ ("User question: " ++ user_question)%string;
      "Database query results:";
      raw_text;
      "Please answer the question based on these results." ].

Definition no_results : string :=
  "Sorry, I couldn't find anything for your question.".

Definition chat (user_question : string) : M string :=
  append_history {| role := "user"; content := user_question |} ;;;
  info <- generate_cypher user_question ;;
  query <- lift (py_get info "query" PNone) ;;
  params <- lift (py_get info "params" (PDict [])) ;;
  records <-
    with_session (call (EvRun query params) (fun tr => run w tr query params)) ;;
  match records with
  | [] => ret no_results
  | _ :: _ =>
      let raw_text := raw_text user_question records in
      append_history
        {| role := "user"; content := user_msg user_question raw_text |} ;;;
      hist <- get_history ;;
      let messages := {| role := "system"; content := system_msg |} :: hist in
      reply <-
        call (EvCompletion messages) (fun tr => completion w tr messages) ;;
      let answer := strip reply in
      append_history {| role := "assistant"; content := answer |} ;;;
      ret answer
  end.

(** [str(value)] for a node, a relationship or a map: the text the driver
    gives for it, taken as a parameter. *)
Variable items_str : list (string * Scalar) -> string.

(** What an f-string renders for a column value. *)
Definition value_str (v : Value) : string :=
  match v with
  | Plain x => py_str x
  | Items props => items_str props
  end.

Definition rating_query : string :=
  "MATCH (m:Movie {title: $title}) RETURN m.rating AS rating".

(** [session.run(query, title=title).single()]: the first record, or
    [None] when the store returns none. *)
Definition get_movie_rating (title : string) : M (option Row) :=
  with_session
    (let q := PStr rating_query in
     let p := PDict [("title", PStr title)] in
     rows <- call (EvRun q p) (fun tr => run w tr q p) ;;
     ret (hd_error rows)).

Definition rating_not_found (title : string) : string :=
  ("Sorry, I couldn't find the rating for '" ++ title ++ "'.")%string.

Definition _friendly_rating_response (title : string) : M string :=
  record <- get_movie_rating title ;;
  match record with
  | None => ret (rating_not_found title)
  | Some [] => ret (rating_not_found title)
  | Some ((_ :: _) as row) =>
      match Dict.lookup "rating" row with
      | None => ret (rating_not_found title)
      | Some (Plain SNone) => ret (rating_not_found title)
      | Some rating =>
          ret ("The rating of '" ++ title ++ "' is "
               ++ value_str rating ++ ".")%string
      end
  end.

Definition KeyError (key : string) : Exn :=
  {| exn_class := "KeyError"; exn_msg := ("'" ++ key ++ "'")%string |}.

(** [record[key]] for a column name. *)
Definition record_item (record : Row) (key : string) : Result Value :=
  match Dict.lookup key record with
  | Some v => Ok v
  | None => Raise (KeyError key)
  end.

(** A [for] loop that updates one variable. *)
Fixpoint for_each {A S} (body : S -> A -> M S) (l : list A) (s : S) : M S :=
  match l with
  | [] => ret s
  | x :: rest => s' <- body s x ;; for_each body rest s'
  end.

Definition dquote : string := String (ascii_of_N 34) "".

Definition create_friendly_response
  (user_question : string) (search_results : list Row) (search_info : PyVal)
  : M string :=
  match search_results with
  | [] => ret "Sorry, I couldn't find anything for your question."
  | _ :: _ =>
      let response :=
        ("Here are the results for your question: " ++ dquote
         ++ user_question ++ dquote ++ ":" ++ nl)%string in
      for_each
        (fun response result =>
           title <- lift (record_item result "m.title") ;;
           year <- lift (record_item result "m.year") ;;
           ret (response ++ "- " ++ value_str title ++ " ("
                ++ value_str year ++ ")" ++ nl)%string)
        search_results response
  end.

End Methods.

End MovieChatbot.

(** ** scripts/gemini_chatbot.py: class GeminiMovieChatbot *)

Module GeminiMovieChatbot.

Import PyStr.

Section Methods.

Variable w : World.

Definition cypher_prompt (user_question : string) : string :=
  (text
     [ "Given the Neo4j database schema with the following definitions:";
       "- Person(person_id, name, birth_year, profession, nationality)";
       "- Movie(movie_id, title, year, genre, director, rating)";
       "- Relationships: ACTED_IN(character_name), DIRECTED(no properties)";
       "Generate a Cypher query and JSON parameters to answer: '" ]
   ++ user_question
   ++ "'. Respond strictly with a JSON object containing 'query' and "
   ++ "'params'.")%string.

(** The fence stripping of [generate_cypher]: no test before indexing. *)
Definition strip_fences (raw : string) : M string :=
  if startswith raw fence then
    let lines := splitlines raw in
    first <- lift (index lines 0) ;;
    let lines := if startswith first fence then drop_first lines else lines in
    last <- lift (index lines (-1)) ;;
    let lines := if startswith last fence then drop_last lines else lines in
    ret (join nl lines)
  else ret raw.

Definition generate_cypher (user_question : string) : M PyVal :=
  let prompt := cypher_prompt user_question in
  reply <- call (EvGenerate prompt) (fun tr => generate_content w tr prompt) ;;
  let raw := strip reply in
  raw <- strip_fences raw ;;
  match Json.loads (interpreter w) raw with
  | Json.Decoded v => ret v
  | Json.Malformed =>
      emit (EvLogError ("Gemini JSON parse error: " ++ raw)%string) ;;;
      ret (PDict [])
  | Json.Raised e => lift (Raise e)
  end.

Definition record_parts (rec : Row) : list string :=
  fold_left
    (fun parts kv =>
       let '(k, v) := kv in
       match v with
       | Items props =>
           fold_left
             (fun parts pv =>
                let '(prop, val) := pv in
                parts ++ [(prop ++ ": " ++ py_str val)%string])
             props parts
       | Plain x => parts ++ [(k ++ ": " ++ py_str x)%string]
       end)
    rec [].

Definition raw_text (user_question : string) (records : list Row) : string :=
  let raw_lines :=
    fold_left
      (fun raw_lines rec =>
         raw_lines ++ [("- " ++ join ", " (record_parts rec))%string])
      records
      [("Results for '" ++ user_question ++ "':")%string] in
  join nl raw_lines.

Definition system_msg : string :=
  ("You are a friendly, human-like movie expert chatting with the user. "
   ++ "Use the full conversation context to handle follow-up questions and "
   ++ "references naturally. "
   ++ "Respond in a warm, conversational tone as if talking in person, using "
   ++ "Markdown when helpful. "
   ++ "If the user asks for details or actors, query the database "
   ++ "accordingly.")%string.

Definition user_msg (user_question : string) (raw_text : string) : string :=
  text
    [ ("User question: " ++ user_question)%string;
      "Database query results:";
      raw_text;
      "Please answer the question based on these results." ].

Definition no_query : string := "Sorry, couldn't generate query.".

Definition no_results : string := "Sorry, I couldn't find anything.".

(** [system_msg + "\n" + "\n".join(f"{m['role']}: {m['content']}" ...)] *)
Definition combined (hist : list Message) : string :=
  (system_msg ++ nl
   ++ join nl (map (fun m => role m ++ ": " ++ content m) hist))%string.

Definition chat (user_question : string) : M string :=
  append_history {| role := "user"; content := user_question |} ;;;
  info <- generate_cypher user_question ;;
  q <- lift (py_get info "query" PNone) ;;
  p <- lift (py_get info "params" (PDict [])) ;;
  if negb (truthy q) then ret no_query
  else
    records <- with_session (call (EvRun q p) (fun tr => run w tr q p)) ;;
    match records with
    | [] => ret no_results
    | _ :: _ =>
        let raw_text := raw_text user_question records in
        append_history
          {| role := "user"; content := user_msg user_question raw_text |} ;;;
        hist <- get_history ;;
        let prompt := combined hist in
        reply <-
          call (EvGenerate prompt) (fun tr => generate_content w tr prompt) ;;
        let ans := strip reply in
        append_history {| role := "assistant"; content := ans |} ;;;
        ret ans
    end.

End Methods.

End GeminiMovieChatbot.

(** ** The two engine configurations behind the route *)

Module Engine.

(** [bot = gemini_bot if use_gemini else chatbot] *)
Inductive Bot : Type := Deepseek | Gemini.

Definition select (model : PyVal) : Bot :=
  if eq_str model "gemini" then Gemini else Deepseek.

Definition chat (b : Bot) (w : World) : string -> M string :=
  match b with
  | Deepseek => MovieChatbot.chat w
  | Gemini => GeminiMovieChatbot.chat w
  end.

Definition generate_cypher (b : Bot) (w : World) : string -> M PyVal :=
  match b with
  | Deepseek => MovieChatbot.generate_cypher w
  | Gemini => GeminiMovieChatbot.generate_cypher w
  end.

(** Whether [chat] goes on to the store with this query: only
    [GeminiMovieChatbot.chat] tests [if not q]. *)
Definition runs_query (b : Bot) (query : PyVal) : bool :=
  match b with
  | Deepseek => true
  | Gemini => truthy query
  end.

Definition no_results (b : Bot) : string :=
  match b with
  | Deepseek => MovieChatbot.no_results
  | Gemini => GeminiMovieChatbot.no_results
  end.

Definition raw_text (b : Bot) : string -> list Row -> string :=
  match b with
  | Deepseek => MovieChatbot.raw_text
  | Gemini => GeminiMovieChatbot.raw_text
  end.

Definition user_msg (b : Bot) : string -> string -> string :=
  match b with
  | Deepseek => MovieChatbot.user_msg
  | Gemini => GeminiMovieChatbot.user_msg
  end.

(** The synthesis request [chat] sends for a history, and the oracle that
    answers it. *)
Definition synthesis_request (b : Bot) (hist : list Message) : Event :=
  match b with
  | Deepseek =>
      EvCompletion
        ({| role := "system"; content := MovieChatbot.system_msg |} :: hist)
  | Gemini => EvGenerate (GeminiMovieChatbot.combined hist)
  end.

Definition synthesis_reply (b : Bot) (w : World) (tr : list Event)
                           (hist : list Message) : Result string :=
  match b with
  | Deepseek =>
      completion w tr
        ({| role := "system"; content := MovieChatbot.system_msg |} :: hist)
  | Gemini => generate_content w tr (GeminiMovieChatbot.combined hist)
  end.

Definition question_turn (user_question : string) : Message :=
  {| role := "user"; content := user_question |}.

(** The turn [chat] appends before synthesis. *)
Definition context_turn (b : Bot) (user_question : string)
                        (records : list Row) : Message :=
  {| role := "user";
     content := user_msg b user_question (raw_text b user_question records) |}.

Definition answer_turn (answer : string) : Message :=
  {| role := "assistant"; content := answer |}.

(** [chat b w user_question] from [st] reaches the store, which answers
    [records]; [st'] is the state when the session has been released. *)
Definition executed (b : Bot) (w : World) (user_question : string)
                    (st : State) (records : list Row) (st' : State) : Prop :=
  exists info st1 query params,
    generate_cypher b w user_question
      {| history := history st ++ [question_turn user_question];
         trace := trace st |} = (Ok info, st1)
    /\ py_get info "query" PNone = Ok query
    /\ py_get info "params" (PDict []) = Ok params
    /\ runs_query b query = true
    /\ run w (trace st1 ++ [EvSessionOpen]) query params = Ok records
    /\ st' = {| history := history st1;
                trace := trace st1
                         ++ [EvSessionOpen; EvRun query params;
                             EvSessionClose] |}.

End Engine.

(** ** app.py: the /chat route *)

Module App.

(** The process: the two bots, each with its own history, and the calls
    made so far. *)
Record Server := {
  chatbot : list Message;
  gemini_bot : list Message;
  calls : list Event
}.

Definition history_of (b : Engine.Bot) (sv : Server) : list Message :=
  match b with
  | Engine.Deepseek => chatbot sv
  | Engine.Gemini => gemini_bot sv
  end.

(** The state the selected bot runs in. *)
Definition state_of (b : Engine.Bot) (sv : Server) : State :=
  {| history := history_of b sv; trace := calls sv |}.

Definition problem_prefix : string := "Sorry, I had a problem: ".

(** The route from the selection of the engine on, that is the selection
    and the [try] statement, for a question that is a text and the value
    [model] of [data.get('model')]: the value of the [answer] field of the
    response, from either branch of the [try]. *)
Definition serve (w : World) (question : string) (model : PyVal)
                 (sv : Server) : string * Server :=
  let bot := Engine.select model in
  let (r, st') := Engine.chat bot w question (state_of bot sv) in
  let answer :=
    match r with
    | Ok answer => answer
    | Raise e => (problem_prefix ++ exn_msg e)%string
    end in
  (answer,
   match bot with
   | Engine.Deepseek =>
       {| chatbot := history st'; gemini_bot := gemini_bot sv;
          calls := trace st' |}
   | Engine.Gemini =>
       {| chatbot := chatbot sv; gemini_bot := history st';
          calls := trace st' |}
   end).

(** What the route hands to the framework: the JSON object with the field
    [answer], or an exception that nothing in the route catches, to which
    the framework responds with status 500. *)
Inductive Response : Type :=
| Answer (answer : string)
| Uncaught (e : Exn).

(** The route [chat], from the value [data] that [request.get_json()]
    returns.  The two calls of [data.get] stand before the [try]: an
    exception they raise leaves the route, and no bot has been called.
    [None] is a question that is not a text: [bot.chat] would append it to
    the history, whose entries hold texts here, so that request is outside
    the model. *)
Definition chat (w : World) (data : PyVal) (sv : Server)
  : option (Response * Server) :=
  match py_get data "question" (PStr "") with
  | Raise e => Some (Uncaught e, sv)
  | Ok question =>
      match py_get data "model" PNone with
      | Raise e => Some (Uncaught e, sv)
      | Ok model =>
          match question with
          | PStr question =>
              Some (Answer (fst (serve w question model sv)),
                    snd (serve w question model sv))
          | _ => None
          end
      end
  end.

End App.

(** ** Scenarios *)

Module Scenario.

Definition dq : string := String (ascii_of_N 34) "".

(** An interpreter as installed: integer literals of up to 4300 digits, and
    room for 900 containers one inside the other under the recursion limit
    of 1000 frames. *)
Definition cpython : Json.Limits :=
  {| Json.int_max_str_digits := 4300; Json.depth := 900 |}.

(** [c * n] *)
Fixpoint copies (c : string) (n : nat) : string :=
  match n with
  | O => ""
  | S n' => (c ++ copies c n')%string
  end.

(** A reply that is one integer literal of 4301 digits. *)
Definition long_integer : string := copies "7" 4301.

(** A reply that opens 901 lists, one inside the other. *)
Definition deep_list : string := copies "[" 901.

(** A model that answers its first request, the translation, with
    [translation] and a later one, the synthesis, with [answer]; a store that
    refuses an empty query, as the driver does, and answers [rows]
    otherwise. *)
Definition world (translation : string) (rows : Result (list Row))
                 (answer : string) : World :=
  let model (tr : list Event) : Result string :=
    match tr with
    | [] => Ok translation
    | _ :: _ => Ok answer
    end in
  {| completion := fun tr _ => model tr;
     generate_content := fun tr _ => model tr;
     run := fun _ query _ =>
       if truthy query then rows
       else Raise {| exn_class := "ValueError";
                     exn_msg := "Cannot run an empty query" |};
     interpreter := cpython |}.

Definition start : State := {| history := []; trace := [] |}.

Definition server : App.Server :=
  {| App.chatbot := []; App.gemini_bot := []; App.calls := [] |}.

Definition question : string := "What is the rating of Inception?".

(** The body the page posts: the question and the engine chosen. *)
Definition request (model : string) : PyVal :=
  PDict [("question", PStr question); ("model", PStr model)].

(** [{"query": "MATCH (m:Movie {title: $title}) RETURN m.rating AS rating",
      "params": {"title": "Inception"}}] *)
Definition rating_query : string :=
  ("{" ++ dq ++ "query" ++ dq ++ ": " ++ dq
   ++ "MATCH (m:Movie {title: $title}) RETURN m.rating AS rating" ++ dq
   ++ ", " ++ dq ++ "params" ++ dq ++ ": {" ++ dq ++ "title" ++ dq ++ ": "
   ++ dq ++ "Inception" ++ dq ++ "}}")%string.

Definition rating_row : Row := [("rating", Plain (SFloat "8.8"))].

Definition movie_row : Row :=
  [("m", Items [("title", SStr "Inception"); ("year", SInt 2010)]);
   ("rating", Plain (SFloat "8.8"))].

(** [{"query": "MATCH (m:Movie) WHERE m.title = $t RETURN m, m.rating AS rating",
      "params": {"t": "Inception"}}], in a fenced block *)
Definition fenced_query : string :=
  text
    [ "```json";
      ("{" ++ dq ++ "query" ++ dq ++ ": " ++ dq
       ++ "MATCH (m:Movie) WHERE m.title = $t RETURN m, m.rating AS rating"
       ++ dq ++ ", " ++ dq ++ "params" ++ dq ++ ": {" ++ dq ++ "t" ++ dq
       ++ ": " ++ dq ++ "Inception" ++ dq ++ "}}")%string;
      "```" ].

Definition first_world : World :=
  world rating_query (Ok [movie_row]) "Inception is rated 8.8.".

Definition second_world : World :=
  world fenced_query (Ok [movie_row]) "It has a rating of 8.8.".

(** A store that cannot be reached. *)
Definition store_down : World :=
  world rating_query
    (Raise {| exn_class := "ServiceUnavailable";
              exn_msg := "Unable to retrieve routing information" |})
    "".

(** A model whose reply holds no query: an empty JSON object. *)
Definition no_query_world : World := world "{}" (Ok []) "".

(** A model whose reply is an opening fence and nothing else. *)
Definition lone_fence_world : World := world "```json" (Ok []) "".

(** A store that finds nothing. *)
Definition nothing_found : World := world rating_query (Ok []) "".

(** A model that translates the question and then stops answering. *)
Definition rate_limited : Exn :=
  {| exn_class := "RateLimitError"; exn_msg := "Rate limit exceeded" |}.

Definition synthesis_down : World :=
  let model (tr : list Event) : Result string :=
    match tr with
    | [] => Ok rating_query
    | _ :: _ => Raise rate_limited
    end in
  {| completion := fun tr _ => model tr;
     generate_content := fun tr _ => model tr;
     run := fun _ _ _ => Ok [rating_row];
     interpreter := cpython |}.

(** A model that tells its two kinds of request apart: it translates a
    request of one message and answers any longer one. *)
Definition steady : World :=
  {| completion := fun _ messages =>
       match messages with
       | [_] => Ok rating_query
       | _ => Ok "Inception is rated 8.8."
       end;
     generate_content := fun _ _ => Ok rating_query;
     run := fun _ _ _ => Ok [rating_row];
     interpreter := cpython |}.

(** A process whose Gemini engine has already answered a question. *)
Definition busy_server : App.Server :=
  {| App.chatbot := [];
     App.gemini_bot :=
       [ {| role := "user"; content := "Who directed Inception?" |};
         {| role := "assistant"; content := "Christopher Nolan." |} ];
     App.calls := [] |}.

(** A session that has already answered a question. *)
Definition later : State :=
  {| history :=
       [ {| role := "user"; content := "Who directed Inception?" |};
         {| role := "user"; content := "User question: Who directed Inception?" |};
         {| role := "assistant"; content := "Christopher Nolan." |} ];
     trace := [] |}.

End Scenario.

(** ** Definitions the properties are stated with *)

(** The four tags [search_database] compares the intent with. *)
Definition recognized_intents : list string :=
  [ "search_movies_by_actor"; "search_movies_by_director";
    "search_movies_by_genre"; "get_top_rated_movies" ].

(** [search_info.get('intent')] for a dictionary. *)
Definition intent_of (search_info : list (string * PyVal)) : PyVal :=
  match Dict.lookup "intent" search_info with
  | Some v => v
  | None => PNone
  end.

(** The entities hold no [limit]: there is no [entities] entry, or it is a
    dictionary without that key. *)
Definition no_limit (search_info : list (string * PyVal)) : Prop :=
  Dict.lookup "entities" search_info = None
  \/ exists entities,
       Dict.lookup "entities" search_info = Some (PDict entities)
       /\ Dict.lookup "limit" entities = None.

Module Normalization.

(** The rule as the specification words it: a column whose value exposes
    key-value pairs gives one "prop: value" entry per property, any other
    column gives "column: value". *)
Definition entries (column : string * Value) : list string :=
  match column with
  | (name, Plain x) => [(name ++ ": " ++ py_str x)%string]
  | (_, Items props) =>
      map (fun pv => (fst pv ++ ": " ++ py_str (snd pv))%string) props
  end.

(** One line per record, its entries in the order of the columns. *)
Definition record_line (r : Row) : string :=
  ("- " ++ PyStr.join ", " (flat_map entries r))%string.

(** The block: a header naming the question, then the records in the order
    the store returned them. *)
Definition block (user_question : string) (records : list Row) : string :=
  PyStr.join nl
    (("Results for '" ++ user_question ++ "':")%string
     :: map record_line records).

End Normalization.

(** [sub] occurs in [s]. *)
Definition contains (s sub : string) : Prop :=
  exists before after, s = (before ++ sub ++ after)%string.

(** The steps of [chat] once the records are read: the answer for no
    record, or the context turn, the synthesis and the answer turn. *)
Definition respond (b : Engine.Bot) (w : World) (user_question : string)
                   (records : list Row) : M string :=
  match records with
  | [] => ret (Engine.no_results b)
  | _ :: _ =>
      append_history (Engine.context_turn b user_question records) ;;;
      hist <- get_history ;;
      reply <-
        call (Engine.synthesis_request b hist)
             (fun tr => Engine.synthesis_reply b w tr hist) ;;
      let answer := PyStr.strip reply in
      append_history (Engine.answer_turn answer) ;;;
      ret answer
  end.

(** A computation that only appends to the history, whatever its outcome. *)
Definition extends {A} (c : M A) : Prop :=
  forall st, exists suffix, history (snd (c st)) = history st ++ suffix.

(** The exceptions of [json.loads] that are not [JSONDecodeError]: the
    conversion error of [int] and the recursion error of the scanner. *)
Definition decoder_exception (e : Exn) : Prop :=
  exn_class e = "ValueError" \/ exn_class e = "RecursionError".

(** A line boundary of [str.splitlines] starts at the head of [s]. *)
Definition starts_break (s : string) : bool :=
  match s with
  | EmptyString => false
  | String a r1 =>
      PyStr.is_nl1 a
      || match r1 with
         | EmptyString => false
         | String b r2 =>
             PyStr.is_nl2 a b
             || match r2 with
                | EmptyString => false
                | String c _ => PyStr.is_nl3 a b c
                end
         end
  end.

(** A line boundary occurs somewhere in [s]. *)
Fixpoint has_break (s : string) : bool :=
  match s with
  | EmptyString => false
  | String _ r => starts_break s || has_break r
  end.

(** A text that [splitlines] keeps as one line. *)
Definition one_line (s : string) : Prop := has_break s = false.

(** The fence stripping of [generate_cypher], in either engine. *)
Definition fence_strip (b : Engine.Bot) : string -> M string :=
  match b with
  | Engine.Deepseek => MovieChatbot.strip_fences
  | Engine.Gemini => GeminiMovieChatbot.strip_fences
  end.

(** A reply that opens with a fence and holds a single line. *)
Definition lone_fence (raw : string) : Prop :=
  PyStr.startswith raw fence = true
  /\ length (PyStr.splitlines raw) = 1.

(** The translation request of [generate_cypher], and the oracle that
    answers it. *)
Definition translation_request (b : Engine.Bot) (user_question : string)
  : Event :=
  match b with
  | Engine.Deepseek =>
      EvCompletion
        [ {| role := "system";
             content := MovieChatbot.cypher_prompt user_question |} ]
  | Engine.Gemini =>
      EvGenerate (GeminiMovieChatbot.cypher_prompt user_question)
  end.

Definition translation_reply (b : Engine.Bot) (w : World)
                             (tr : list Event) (user_question : string)
  : Result string :=
  match b with
  | Engine.Deepseek =>
      completion w tr
        [ {| role := "system";
             content := MovieChatbot.cypher_prompt user_question |} ]
  | Engine.Gemini =>
      generate_content w tr (GeminiMovieChatbot.cypher_prompt user_question)
  end.

(** What [generate_cypher] logs before the text that did not parse. *)
Definition parse_error_prefix (b : Engine.Bot) : string :=
  match b with
  | Engine.Deepseek => "Failed to parse Cypher generation response: "
  | Engine.Gemini => "Gemini JSON parse error: "
  end.

(** The state once the events [evs] have been recorded. *)
Definition recorded (st : State) (evs : list Event) : State :=
  {| history := history st; trace := trace st ++ evs |}.

(** The three events of a session: opened, one query run, released. *)
Definition session_events (query params : PyVal) : list Event :=
  [EvSessionOpen; EvRun query params; EvSessionClose].

(** The state in which [chat] calls [generate_cypher]. *)
Definition asked (st : State) (user_question : string) : State :=
  {| history := history st ++ [Engine.question_turn user_question];
     trace := trace st |}.

(** The fixed answer of [chat] for a translation it does not run; only
    [GeminiMovieChatbot.chat] has one. *)
Definition unrun_answer (b : Engine.Bot) : string :=
  match b with
  | Engine.Deepseek => ""
  | Engine.Gemini => GeminiMovieChatbot.no_query
  end.

(** [chat], step by step on its outcomes. *)
Definition chat_outline (b : Engine.Bot) (w : World) (user_question : string)
                        (st : State) : Result string * State :=
  match Engine.generate_cypher b w user_question (asked st user_question) with
  | (Raise e, st1) => (Raise e, st1)
  | (Ok info, st1) =>
      match py_get info "query" PNone with
      | Raise e => (Raise e, st1)
      | Ok query =>
          match py_get info "params" (PDict []) with
          | Raise e => (Raise e, st1)
          | Ok params =>
              if Engine.runs_query b query then
                match run w (trace st1 ++ [EvSessionOpen]) query params with
                | Raise e =>
                    (Raise e, recorded st1 (session_events query params))
                | Ok records =>
                    respond b w user_question records
                      (recorded st1 (session_events query params))
                end
              else (Ok (unrun_answer b), st1)
          end
      end
  end.

(** A call to the language model. *)
Definition is_model_call (e : Event) : bool :=
  match e with
  | EvCompletion _ | EvGenerate _ => true
  | _ => false
  end.

(** The calls [chat] may make after the translation request: at most one
    logged parse error, then at most one session, opened, used for one
    query and released at once, then at most one more call to the model,
    and only after a session. *)
Definition after_session (evs : list Event) : bool :=
  match evs with
  | [] => true
  | [e] => is_model_call e
  | _ => false
  end.

Definition after_translation (evs : list Event) : bool :=
  match evs with
  | [] => true
  | EvSessionOpen :: EvRun _ _ :: EvSessionClose :: rest => after_session rest
  | _ => false
  end.

Definition after_request (evs : list Event) : bool :=
  match evs with
  | EvLogError _ :: rest => after_translation rest
  | _ => after_translation evs
  end.

(** The branches of [search_database]: the intent tag, the query of the
    method it calls, the entity it reads and the parameter it binds, and
    the value bound when the entity is missing. *)
Definition dispatch_table : list (string * (string * (string * PyVal))) :=
  [ ("search_movies_by_actor",
     (MovieChatbot.actor_query, ("actor_name", PNone)));
    ("search_movies_by_director",
     (MovieChatbot.director_query, ("director_name", PNone)));
    ("search_movies_by_genre",
     (MovieChatbot.genre_query, ("genre", PNone)));
    ("get_top_rated_movies",
     (MovieChatbot.top_rated_query, ("limit", PInt 5))) ].

(** [search_info.get('entities', {})] for a dictionary. *)
Definition entities_of (search_info : list (string * PyVal)) : PyVal :=
  match Dict.lookup "entities" search_info with
  | Some v => v
  | None => PDict []
  end.

(** [entities.get(name, default)] for a dictionary. *)
Definition entity (entities : list (string * PyVal)) (name : string)
                  (default : PyVal) : PyVal :=
  match Dict.lookup name entities with
  | Some v => v
  | None => default
  end.

Definition is_dict (v : PyVal) : bool :=
  match v with
  | PDict _ => true
  | _ => false
  end.

(** A request of the model holds the text [s]: in one of its messages, or
    in its prompt. *)
Definition request_holds (e : Event) (s : string) : Prop :=
  match e with
  | EvCompletion messages =>
      exists m, In m messages /\ contains (content m) s
  | EvGenerate contents => contains contents s
  | _ => False
  end.

(** The line [create_friendly_response] writes for a record that has the
    two columns it reads. *)
Definition listed (items_str : list (string * Scalar) -> string)
                  (result : Row) : option string :=
  match Dict.lookup "m.title" result, Dict.lookup "m.year" result with
  | Some title, Some year =>
      Some ("- " ++ MovieChatbot.value_str items_str title ++ " ("
            ++ MovieChatbot.value_str items_str year ++ ")" ++ nl)%string
  | _, _ => None
  end.

Definition results_header (user_question : string) : string :=
  ("Here are the results for your question: " ++ MovieChatbot.dquote
   ++ user_question ++ MovieChatbot.dquote ++ ":" ++ nl)%string.

(** The parameters [get_movie_rating] binds. *)
Definition rating_params (title : string) : PyVal :=
  PDict [("title", PStr title)].

(** The first record the store returned holds a rating, and it is not
    [None]. *)
Definition rated (rows : list Row) (rating : Value) : Prop :=
  exists row rest,
    rows = row :: rest
    /\ Dict.lookup "rating" row = Some rating
    /\ rating <> Plain SNone.

(** ** Properties *)

(** *** Indexing and the monad *)

Lemma index_first {A} (x : A) (l : list A) : index (x :: l) 0 = Ok x.
Proof.
  unfold index.
  change (0 <? 0)%Z with false; cbv iota.
  replace ((0 <=? 0) && (0 <? Z.of_nat (length (x :: l))))%Z with true.
  - reflexivity.
  - symmetry. apply andb_true_intro. split.
    + reflexivity.
    + apply Z.ltb_lt. simpl length. lia.
Qed.

Lemma index_last {A} (x : A) (l : list A) :
  exists y, index (x :: l) (-1) = Ok y.
Proof.
  unfold index.
  change (-1 <? 0)%Z with true; cbv iota.
  set (n := length (x :: l)).
  assert (Hn : n = S (length l)) by reflexivity.
  replace ((0 <=? -1 + Z.of_nat n) && (-1 + Z.of_nat n <? Z.of_nat n))%Z
    with true.
  - destruct (nth_error (x :: l) (Z.to_nat (-1 + Z.of_nat n))) as [y|] eqn:E.
    + exists y. reflexivity.
    + apply nth_error_None in E. fold n in E. lia.
  - symmetry. apply andb_true_intro. split.
    + apply Z.leb_le. lia.
    + apply Z.ltb_lt. lia.
Qed.

Lemma strip_fences_guarded_total (raw : string) (st : State) :
  exists r, MovieChatbot.strip_fences_guarded raw st = (Ok r, st).
Proof.
  unfold MovieChatbot.strip_fences_guarded.
  destruct (PyStr.startswith raw fence); [|eexists; reflexivity].
  destruct (PyStr.splitlines raw) as [|x l].
  - eexists; reflexivity.
  - unfold bind at 1. unfold bind at 1. unfold lift at 1.
    rewrite index_first. unfold ret at 1.
    set (lines := if PyStr.startswith x fence then drop_first (x :: l)
                  else x :: l).
    destruct lines as [|y l'].
    + eexists; reflexivity.
    + unfold bind, lift, ret.
      destruct (index_last y l') as [z Hz]. rewrite Hz.
      eexists; reflexivity.
Qed.

Lemma strip_fences_guarded_state (raw r : string) (st st' : State) :
  MovieChatbot.strip_fences_guarded raw st = (Ok r, st) ->
  MovieChatbot.strip_fences_guarded raw st' = (Ok r, st').
Proof.
  intros H.
  destruct (strip_fences_guarded_total raw st') as [r' H'].
  rewrite H'. f_equal. f_equal.
  unfold MovieChatbot.strip_fences_guarded in H, H'.
  destruct (PyStr.startswith raw fence).
  - destruct (PyStr.splitlines raw) as [|x l].
    + unfold bind, ret in H, H'. congruence.
    + unfold bind at 1 2, lift at 1, ret at 1 in H.
      unfold bind at 1 2, lift at 1, ret at 1 in H'.
      rewrite index_first in H, H'.
      destruct (if PyStr.startswith x fence then drop_first (x :: l)
                else x :: l) as [|y l'].
      * unfold bind, ret in H, H'. congruence.
      * unfold bind, lift, ret in H, H'.
        destruct (index (y :: l') (-1)) eqn:E; [|discriminate].
        congruence.
  - unfold ret in H, H'. congruence.
Qed.

(** *** C9: [understand_question] over the replies of the model *)

Lemma scan_number_raised (lim : Json.Limits) (s : string) (e : Exn) :
  Json.scan_number lim s = Json.Raised e -> decoder_exception e.
Proof.
  unfold Json.scan_number.
  destruct (Json.match_number s) as [[p rest]|]; [|discriminate].
  destruct (Json.np_frac p); [discriminate|].
  destruct (Json.np_exp p); [discriminate|].
  destruct (Json.too_many_digits lim _); [|discriminate].
  intros H. injection H as <-. left. reflexivity.
Qed.

Lemma literal_not_raised (lit : string) (v : PyVal) (s : string) (e : Exn) :
  Json.literal lit v s <> Json.Raised e.
Proof.
  unfold Json.literal. destruct (String.prefix lit s); discriminate.
Qed.

Lemma scan_once_raised (lim : Json.Limits) (budget : nat) :
  forall (s : string) (e : Exn),
    Json.scan_once lim budget s = Json.Raised e -> decoder_exception e.
Proof.
  induction budget as [|n IH]; intros s e; destruct s as [|c r];
    cbn [Json.scan_once]; try discriminate.
  - destruct (Json.is_quote c).
    { destruct (Json.scanstring "" r) as [[t r']|]; discriminate. }
    destruct (Json.ch_is c "{").
    { intros H. injection H as <-. right. reflexivity. }
    destruct (Json.ch_is c "[").
    { intros H. injection H as <-. right. reflexivity. }
    repeat match goal with
           | |- (if ?b then _ else _) = _ -> _ =>
               destruct b; [intros H; exfalso; exact (literal_not_raised _ _ _ _ H)|]
           end.
    destruct (Json.literal "-Infinity" (PFloat "-Infinity") (String c r));
      try discriminate; apply scan_number_raised.
  - destruct (Json.is_quote c).
    { destruct (Json.scanstring "" r) as [[t r']|]; discriminate. }
    destruct (Json.ch_is c "{").
    { destruct (Json.skip_ws r) as [|d r']; [discriminate|].
      destruct (Json.ch_is d "}"); [discriminate|].
      generalize (String d r') as s0, (@nil (string * PyVal)) as acc.
      induction (String.length r) as [|k IHk]; intros s0 acc;
        [discriminate|].
      destruct s0 as [|q r0]; [discriminate|].
      destruct (Json.is_quote q); [|discriminate].
      destruct (Json.scanstring "" r0) as [[key r1]|]; [|discriminate].
      destruct (Json.skip_ws r1) as [|colon r2]; [discriminate|].
      destruct (Json.ch_is colon ":"); [|discriminate].
      destruct (Json.scan_once lim n (Json.skip_ws r2)) as [[v r3]| |e']
        eqn:Hv.
      - destruct (Json.skip_ws r3) as [|d' r4]; [discriminate|].
        destruct (Json.ch_is d' "}"); [discriminate|].
        destruct (Json.ch_is d' ","); [|discriminate].
        apply IHk.
      - discriminate.
      - intros H. injection H as <-. exact (IH _ _ Hv). }
    destruct (Json.ch_is c "[").
    { destruct (Json.skip_ws r) as [|d r']; [discriminate|].
      destruct (Json.ch_is d "]"); [discriminate|].
      generalize (String d r') as s0, (@nil PyVal) as acc.
      induction (String.length r) as [|k IHk]; intros s0 acc;
        [discriminate|].
      destruct (Json.scan_once lim n s0) as [[v r1]| |e'] eqn:Hv.
      - destruct (Json.skip_ws r1) as [|d' r2]; [discriminate|].
        destruct (Json.ch_is d' "]"); [discriminate|].
        destruct (Json.ch_is d' ","); [|discriminate].
        apply IHk.
      - discriminate.
      - intros H. injection H as <-. exact (IH _ _ Hv). }
    repeat match goal with
           | |- (if ?b then _ else _) = _ -> _ =>
               destruct b; [intros H; exfalso; exact (literal_not_raised _ _ _ _ H)|]
           end.
    destruct (Json.literal "-Infinity" (PFloat "-Infinity") (String c r));
      try discriminate; apply scan_number_raised.
Qed.

Lemma loads_raised (lim : Json.Limits) (s : string) (e : Exn) :
  Json.loads lim s = Json.Raised e -> decoder_exception e.
Proof.
  unfold Json.loads.
  destruct (Json.scan_once lim (Json.depth lim) (Json.skip_ws s))
    as [[v rest]| |e'] eqn:Hscan.
  - destruct (Json.skip_ws rest); discriminate.
  - discriminate.
  - intros H. injection H as <-. exact (scan_once_raised _ _ _ _ Hscan).
Qed.

(** C9, as amended.  For every reply text of the model, the fence stripping
    of [understand_question] does not raise: it tests the list of lines
    before each indexing, so a reply of a single fence line, or one that is
    empty once stripped, is handled.  What [understand_question] then does is
    set by [json.loads] on the stripped text: it returns whatever that text
    decodes to (a dictionary when the text is a JSON object), it returns the
    empty dictionary when [json.loads] raises [JSONDecodeError], and it
    raises when [json.loads] raises anything else, which is the
    [ValueError] of an integer literal beyond the interpreter's digit limit
    or the [RecursionError] of containers nested beyond its recursion
    limit.  The history is not touched. *)
Theorem understand_question_outcome
  (w : World) (user_question : string) (st : State) (reply : string) :
  completion w (trace st) (MovieChatbot.intent_request user_question)
  = Ok reply ->
  exists raw,
    MovieChatbot.strip_fences_guarded (PyStr.strip reply) st = (Ok raw, st)
    /\ history (snd (MovieChatbot.understand_question w user_question st))
       = history st
    /\ match Json.loads (interpreter w) raw with
       | Json.Decoded v =>
           fst (MovieChatbot.understand_question w user_question st) = Ok v
       | Json.Malformed =>
           fst (MovieChatbot.understand_question w user_question st)
           = Ok (PDict [])
       | Json.Raised e =>
           fst (MovieChatbot.understand_question w user_question st)
           = Raise e
           /\ decoder_exception e
       end.
Proof.
  intros Hreply.
  destruct (strip_fences_guarded_total (PyStr.strip reply) st) as [raw Hraw].
  exists raw.
  pose (st1 := {| history := history st;
                  trace := trace st
                           ++ [EvCompletion
                                 (MovieChatbot.intent_request user_question)] |}).
  assert (Hrun : MovieChatbot.understand_question w user_question st
                 = match Json.loads (interpreter w) raw with
                   | Json.Decoded v => ret v
                   | Json.Malformed =>
                       emit (EvLogError
                               ("Failed to parse AI response as JSON: "
                                ++ raw)%string) ;;; ret (PDict [])
                   | Json.Raised e => lift (Raise e)
                   end st1).
  { unfold MovieChatbot.understand_question.
    unfold bind at 1, call at 1. rewrite Hreply.
    unfold bind at 1.
    erewrite (strip_fences_guarded_state _ _ st _ Hraw). reflexivity. }
  rewrite Hrun.
  split; [exact Hraw|].
  destruct (Json.loads (interpreter w) raw) as [v| |e] eqn:Hparse.
  - split; reflexivity.
  - split; reflexivity.
  - split; [reflexivity|]. split; [reflexivity|].
    exact (loads_raised _ _ _ Hparse).
Qed.

(** A reply that is a single fence line. *)
Lemma understand_question_outcome_witness :
  exists raw,
    MovieChatbot.strip_fences_guarded (PyStr.strip "```json") Scenario.start
    = (Ok raw, Scenario.start)
    /\ history (snd (MovieChatbot.understand_question
                       (Scenario.world "```json" (Ok []) "")
                       Scenario.question Scenario.start))
       = history Scenario.start
    /\ match Json.loads (interpreter (Scenario.world "```json" (Ok []) ""))
               raw with
       | Json.Decoded v =>
           fst (MovieChatbot.understand_question
                  (Scenario.world "```json" (Ok []) "")
                  Scenario.question Scenario.start) = Ok v
       | Json.Malformed =>
           fst (MovieChatbot.understand_question
                  (Scenario.world "```json" (Ok []) "")
                  Scenario.question Scenario.start) = Ok (PDict [])
       | Json.Raised e =>
           fst (MovieChatbot.understand_question
                  (Scenario.world "```json" (Ok []) "")
                  Scenario.question Scenario.start) = Raise e
           /\ decoder_exception e
       end.
Proof.
  apply (understand_question_outcome
           (Scenario.world "```json" (Ok []) "") Scenario.question
           Scenario.start "```json").
  reflexivity.
Defined.

(** C9, as stated, fails.  The reply [42] is JSON, and what is returned is
    the integer 42, not a dictionary.  A reply of 4301 digits is JSON too,
    and [understand_question] raises: the [ValueError] of the conversion is
    not a [JSONDecodeError], so the handler lets it pass.  So does the
    [RecursionError] for a reply that opens 901 lists where the interpreter
    has room for 900. *)
Lemma understand_question_raises_or_returns_non_dict :
  ~ (exists members,
       fst (MovieChatbot.understand_question
              (Scenario.world "42" (Ok []) "") Scenario.question
              Scenario.start) = Ok (PDict members))
  /\ fst (MovieChatbot.understand_question
            (Scenario.world Scenario.long_integer (Ok []) "")
            Scenario.question Scenario.start)
     = Raise (Json.digits_error 4300 4301)
  /\ fst (MovieChatbot.understand_question
            (Scenario.world Scenario.deep_list (Ok []) "")
            Scenario.question Scenario.start)
     = Raise (Json.RecursionError "array").
Proof.
  split; [|split].
  - intros [members H]. vm_compute in H. discriminate H.
  - vm_compute. reflexivity.
  - vm_compute. reflexivity.
Qed.

(** *** C10: the dispatch of [search_database] *)

(** C10.  For a [search_info] whose intent is none of the four recognized
    tags, [search_database] returns the empty list and leaves the state as
    it was: no session is opened and no query is run.  When the intent is
    [get_top_rated_movies] and the entities hold no [limit], the query of
    [get_top_rated_movies] is run with [limit] bound to 5. *)
Theorem search_database_dispatch
  (w : World) (search_info : list (string * PyVal)) (st : State) :
  ((forall tag, In tag recognized_intents ->
                eq_str (intent_of search_info) tag = false) ->
   MovieChatbot.search_database w (PDict search_info) st = (Ok [], st))
  /\ (eq_str (intent_of search_info) "get_top_rated_movies" = true ->
      no_limit search_info ->
      MovieChatbot.search_database w (PDict search_info) st
      = MovieChatbot.get_top_rated_movies w (PInt 5) st
      /\ trace (snd (MovieChatbot.search_database w (PDict search_info) st))
         = trace st
           ++ [ EvSessionOpen;
                EvRun (PStr MovieChatbot.top_rated_query)
                      (PDict [("limit", PInt 5)]);
                EvSessionClose ]).
Proof.
  assert (Hget :
             MovieChatbot.search_database w (PDict search_info) st
             = (entities <- lift (py_get (PDict search_info) "entities"
                                    (PDict [])) ;;
                if eq_str (intent_of search_info) "search_movies_by_actor"
                then
                  actor_name <- lift (py_get entities "actor_name" PNone) ;;
                  MovieChatbot.search_movies_by_actor w actor_name
                else if eq_str (intent_of search_info)
                          "search_movies_by_director"
                then
                  director_name <-
                    lift (py_get entities "director_name" PNone) ;;
                  MovieChatbot.search_movies_by_director w director_name
                else if eq_str (intent_of search_info)
                          "search_movies_by_genre"
                then
                  genre <- lift (py_get entities "genre" PNone) ;;
                  MovieChatbot.search_movies_by_genre w genre
                else if eq_str (intent_of search_info)
                          "get_top_rated_movies"
                then
                  limit <- lift (py_get entities "limit" (PInt 5)) ;;
                  MovieChatbot.get_top_rated_movies w limit
                else ret []) st).
  { unfold MovieChatbot.search_database, intent_of.
    unfold bind at 1, lift at 1, py_get at 1.
    destruct (Dict.lookup "intent" search_info); reflexivity. }
  split.
  - intros Hnone. rewrite Hget.
    unfold bind, lift, py_get.
    rewrite (Hnone "search_movies_by_actor") by (simpl; tauto).
    rewrite (Hnone "search_movies_by_director") by (simpl; tauto).
    rewrite (Hnone "search_movies_by_genre") by (simpl; tauto).
    rewrite (Hnone "get_top_rated_movies") by (simpl; tauto).
    destruct (Dict.lookup "entities" search_info); reflexivity.
  - intros Htop Hlimit.
    assert (Hother : forall tag,
               tag <> "get_top_rated_movies" ->
               eq_str (intent_of search_info) tag = false).
    { intros tag Hne. unfold eq_str in *.
      destruct (intent_of search_info); try discriminate.
      apply String.eqb_eq in Htop. subst s.
      apply String.eqb_neq. congruence. }
    assert (Heq : MovieChatbot.search_database w (PDict search_info) st
                  = MovieChatbot.get_top_rated_movies w (PInt 5) st).
    { rewrite Hget.
      unfold bind at 1, lift at 1, py_get at 1.
      rewrite (Hother "search_movies_by_actor") by discriminate.
      rewrite (Hother "search_movies_by_director") by discriminate.
      rewrite (Hother "search_movies_by_genre") by discriminate.
      rewrite Htop.
      destruct Hlimit as [Habs | [entities [Hent Hlim]]].
      - rewrite Habs. unfold bind, lift, py_get. reflexivity.
      - rewrite Hent. unfold bind, lift, py_get. rewrite Hlim. reflexivity. }
    split; [exact Heq|].
    rewrite Heq.
    unfold MovieChatbot.get_top_rated_movies, MovieChatbot.run_in_session,
      with_session, bind, emit, call.
    cbn [snd trace history]. rewrite <- !app_assoc. reflexivity.
Qed.

(** An intent outside the four tags, and a top-rated request that names no
    limit. *)
Lemma search_database_dispatch_witness :
  MovieChatbot.search_database (Scenario.world "" (Ok []) "")
    (PDict [("intent", PStr "get_movie_rating");
            ("entities", PDict [("title", PStr "Inception")])])
    Scenario.start = (Ok [], Scenario.start)
  /\ trace (snd (MovieChatbot.search_database (Scenario.world "" (Ok []) "")
                   (PDict [("intent", PStr "get_top_rated_movies");
                           ("entities", PDict [])])
                   Scenario.start))
     = trace Scenario.start
       ++ [ EvSessionOpen;
            EvRun (PStr MovieChatbot.top_rated_query)
                  (PDict [("limit", PInt 5)]);
            EvSessionClose ].
Proof.
  split.
  - apply (proj1 (search_database_dispatch
                    (Scenario.world "" (Ok []) "")
                    [("intent", PStr "get_movie_rating");
                     ("entities", PDict [("title", PStr "Inception")])]
                    Scenario.start)).
    intros tag Hin. simpl in Hin.
    destruct Hin as [<- | [<- | [<- | [<- | []]]]]; reflexivity.
  - apply (proj2 (search_database_dispatch
                    (Scenario.world "" (Ok []) "")
                    [("intent", PStr "get_top_rated_movies");
                     ("entities", PDict [])]
                    Scenario.start)).
    + reflexivity.
    + right. exists []. split; reflexivity.
Defined.

(** *** C6: the normalization rule *)

Lemma fold_left_append {A B} (f : B -> list A) (l : list B) (init : list A) :
  fold_left (fun acc x => acc ++ f x) l init = init ++ flat_map f l.
Proof.
  revert init. induction l as [|x l IH]; intros init; simpl.
  - now rewrite app_nil_r.
  - rewrite IH. now rewrite app_assoc.
Qed.

Lemma fold_left_ext {A B} (f g : A -> B -> A) (l : list B) (init : A) :
  (forall a x, f a x = g a x) -> fold_left f l init = fold_left g l init.
Proof.
  intros H. revert init. induction l as [|x l IH]; intros init; simpl.
  - reflexivity.
  - rewrite H. apply IH.
Qed.

Lemma flat_map_singleton {A B} (f : A -> B) (l : list A) :
  flat_map (fun x => [f x]) l = map f l.
Proof.
  induction l as [|x l IH]; simpl; [reflexivity | now rewrite IH].
Qed.

Lemma record_parts_deepseek (r : Row) :
  MovieChatbot.record_parts r = flat_map Normalization.entries r.
Proof.
  unfold MovieChatbot.record_parts.
  rewrite (fold_left_ext _ (fun acc kv => acc ++ Normalization.entries kv)).
  - now rewrite fold_left_append.
  - intros parts [key [x | props]]; simpl; [reflexivity|].
    rewrite (fold_left_ext _
               (fun acc pv => acc ++ [(fst pv ++ ": " ++ py_str (snd pv))%string])).
    + rewrite fold_left_append. now rewrite flat_map_singleton.
    + intros acc [prop val]; reflexivity.
Qed.

Lemma record_parts_gemini (r : Row) :
  GeminiMovieChatbot.record_parts r = flat_map Normalization.entries r.
Proof.
  unfold GeminiMovieChatbot.record_parts.
  rewrite (fold_left_ext _ (fun acc kv => acc ++ Normalization.entries kv)).
  - now rewrite fold_left_append.
  - intros parts [key [x | props]]; simpl; [reflexivity|].
    rewrite (fold_left_ext _
               (fun acc pv => acc ++ [(fst pv ++ ": " ++ py_str (snd pv))%string])).
    + rewrite fold_left_append. now rewrite flat_map_singleton.
    + intros acc [prop val]; reflexivity.
Qed.

Lemma raw_text_block
  (b : Engine.Bot) (user_question : string) (records : list Row) :
  Engine.raw_text b user_question records
  = Normalization.block user_question records.
Proof.
  unfold Normalization.block.
  destruct b; simpl.
  - unfold MovieChatbot.raw_text.
    rewrite (fold_left_ext _
               (fun acc r => acc ++ [Normalization.record_line r])).
    + rewrite fold_left_append. now rewrite flat_map_singleton.
    + intros acc r. unfold Normalization.record_line.
      now rewrite record_parts_deepseek.
  - unfold GeminiMovieChatbot.raw_text.
    rewrite (fold_left_ext _
               (fun acc r => acc ++ [Normalization.record_line r])).
    + rewrite fold_left_append. now rewrite flat_map_singleton.
    + intros acc r. unfold Normalization.record_line.
      now rewrite record_parts_gemini.
Qed.

(** C6.  In both engines the text built by the loops of [chat] is the block
    of the normalization rule: after the header, one line per record, in
    which a column that exposes key-value pairs is expanded to one
    "prop: value" entry per property and any other column is rendered as
    "column: value"; columns and records keep the order in which the store
    returned them. *)
Theorem raw_text_is_normalization
  (user_question : string) (records : list Row) :
  MovieChatbot.raw_text user_question records
  = PyStr.join nl
      (("Results for '" ++ user_question ++ "':")%string
       :: map (fun r =>
                 ("- " ++ PyStr.join ", "
                            (flat_map Normalization.entries r))%string)
              records)
  /\ GeminiMovieChatbot.raw_text user_question records
     = MovieChatbot.raw_text user_question records.
Proof.
  split.
  - exact (raw_text_block Engine.Deepseek user_question records).
  - exact (eq_trans (raw_text_block Engine.Gemini user_question records)
             (eq_sym (raw_text_block Engine.Deepseek user_question records))).
Qed.

(** *** The history along [chat] *)

Lemma strip_fences_state_deepseek (raw : string) (st : State) :
  snd (MovieChatbot.strip_fences raw st) = st.
Proof.
  unfold MovieChatbot.strip_fences.
  destruct (PyStr.startswith raw fence); [|reflexivity].
  unfold bind, lift, ret.
  destruct (index (PyStr.splitlines raw) 0) as [first|e]; [|reflexivity].
  destruct (index _ (-1)); reflexivity.
Qed.

Lemma strip_fences_state_gemini (raw : string) (st : State) :
  snd (GeminiMovieChatbot.strip_fences raw st) = st.
Proof.
  unfold GeminiMovieChatbot.strip_fences.
  destruct (PyStr.startswith raw fence); [|reflexivity].
  unfold bind, lift, ret.
  destruct (index (PyStr.splitlines raw) 0) as [first|e]; [|reflexivity].
  destruct (index _ (-1)); reflexivity.
Qed.

(** Translation leaves the history as it is. *)
Lemma generate_cypher_history
  (b : Engine.Bot) (w : World) (user_question : string) (st : State) :
  history (snd (Engine.generate_cypher b w user_question st)) = history st.
Proof.
  destruct b; simpl.
  - unfold MovieChatbot.generate_cypher.
    unfold bind at 1, call at 1.
    destruct (completion w _ _) as [reply|e]; [|reflexivity].
    unfold bind at 1.
    match goal with
    | |- context [MovieChatbot.strip_fences ?r ?s] =>
        pose proof (strip_fences_state_deepseek r s) as Hst;
        destruct (MovieChatbot.strip_fences r s) as [[raw|e] st1]
    end; simpl in Hst; subst st1.
    + destruct (Json.loads (interpreter w) raw); reflexivity.
    + reflexivity.
  - unfold GeminiMovieChatbot.generate_cypher.
    unfold bind at 1, call at 1.
    destruct (generate_content w _ _) as [reply|e]; [|reflexivity].
    unfold bind at 1.
    match goal with
    | |- context [GeminiMovieChatbot.strip_fences ?r ?s] =>
        pose proof (strip_fences_state_gemini r s) as Hst;
        destruct (GeminiMovieChatbot.strip_fences r s) as [[raw|e] st1]
    end; simpl in Hst; subst st1.
    + destruct (Json.loads (interpreter w) raw); reflexivity.
    + reflexivity.
Qed.

(** Once the store has answered, [chat] is [respond] on the records. *)
Lemma chat_after_execution
  (b : Engine.Bot) (w : World) (user_question : string)
  (st st1 : State) (records : list Row) :
  Engine.executed b w user_question st records st1 ->
  Engine.chat b w user_question st = respond b w user_question records st1
  /\ history st1 = history st ++ [Engine.question_turn user_question].
Proof.
  intros (info & st0 & query & params & Hgen & Hq & Hp & Hruns & Hrun & ->).
  pose proof (generate_cypher_history b w user_question
                {| history := history st
                              ++ [Engine.question_turn user_question];
                   trace := trace st |}) as Hhist.
  rewrite Hgen in Hhist. cbn [snd history] in Hhist.
  split; [|exact Hhist].
  destruct b; cbn [Engine.chat Engine.generate_cypher Engine.runs_query] in *.
  - unfold MovieChatbot.chat.
    unfold bind at 1, append_history at 1.
    unfold Engine.question_turn in Hgen.
    unfold bind at 1. rewrite Hgen.
    unfold bind at 1, lift at 1. rewrite Hq.
    unfold bind at 1, lift at 1. rewrite Hp.
    unfold bind at 1, with_session at 1, bind at 1, emit at 1, call at 1.
    cbn [trace history]. rewrite Hrun.
    rewrite <- !app_assoc. cbn [app].
    destruct records; reflexivity.
  - unfold GeminiMovieChatbot.chat.
    unfold bind at 1, append_history at 1.
    unfold Engine.question_turn in Hgen.
    unfold bind at 1. rewrite Hgen.
    unfold bind at 1, lift at 1. rewrite Hq.
    unfold bind at 1, lift at 1. rewrite Hp.
    rewrite Hruns. cbn [negb].
    unfold bind at 1, with_session at 1, bind at 1, emit at 1, call at 1.
    cbn [trace history]. rewrite Hrun.
    rewrite <- !app_assoc. cbn [app].
    destruct records; reflexivity.
Qed.

(** *** C8: the history only grows *)

Lemma extends_ret {A} (a : A) : extends (ret a).
Proof. intros st. exists []. simpl. now rewrite app_nil_r. Qed.

Lemma extends_lift {A} (r : Result A) : extends (lift r).
Proof. intros st. exists []. simpl. now rewrite app_nil_r. Qed.

Lemma extends_emit (e : Event) : extends (emit e).
Proof. intros st. exists []. simpl. now rewrite app_nil_r. Qed.

Lemma extends_call {A} (e : Event) (oracle : list Event -> Result A) :
  extends (call e oracle).
Proof. intros st. exists []. simpl. now rewrite app_nil_r. Qed.

Lemma extends_get_history : extends get_history.
Proof. intros st. exists []. simpl. now rewrite app_nil_r. Qed.

Lemma extends_append_history (m : Message) : extends (append_history m).
Proof. intros st. exists [m]. reflexivity. Qed.

Lemma extends_bind {A B} (c : M A) (k : A -> M B) :
  extends c -> (forall a, extends (k a)) -> extends (bind c k).
Proof.
  intros Hc Hk st. unfold bind.
  destruct (Hc st) as [s1 H1].
  destruct (c st) as [[a|e] st1]; simpl in H1.
  - destruct (Hk a st1) as [s2 H2].
    exists (s1 ++ s2). rewrite H2, H1. now rewrite app_assoc.
  - exists s1. exact H1.
Qed.

Lemma extends_with_session {A} (body : M A) :
  extends body -> extends (with_session body).
Proof.
  intros Hb st. unfold with_session.
  destruct (extends_bind (emit EvSessionOpen) (fun _ => body)
              (extends_emit _) (fun _ => Hb) st) as [s H].
  destruct ((emit EvSessionOpen ;;; body) st) as [r st1].
  exists s. exact H.
Qed.

Lemma extends_strip_fences_deepseek (raw : string) :
  extends (MovieChatbot.strip_fences raw).
Proof.
  intros st. rewrite strip_fences_state_deepseek.
  exists []. now rewrite app_nil_r.
Qed.

Lemma extends_strip_fences_gemini (raw : string) :
  extends (GeminiMovieChatbot.strip_fences raw).
Proof.
  intros st. rewrite strip_fences_state_gemini.
  exists []. now rewrite app_nil_r.
Qed.

Create HintDb extends.
#[local] Hint Resolve extends_ret extends_lift extends_emit extends_call
  extends_get_history extends_append_history extends_with_session
  extends_strip_fences_deepseek extends_strip_fences_gemini : extends.

Ltac extends_step :=
  match goal with
  | |- extends (bind _ _) => apply extends_bind; [|intros ?]
  | |- extends (match ?x with _ => _ end) => destruct x
  | |- extends (if ?x then _ else _) => destruct x
  | |- extends _ => solve [auto with extends]
  end.

Lemma extends_chat (b : Engine.Bot) (w : World) (user_question : string) :
  extends (Engine.chat b w user_question).
Proof.
  destruct b; simpl.
  - unfold MovieChatbot.chat, MovieChatbot.generate_cypher.
    repeat extends_step.
  - unfold GeminiMovieChatbot.chat, GeminiMovieChatbot.generate_cypher.
    repeat extends_step.
Qed.

(** C8.  On every path of [chat], and so of the route, the history after
    the call is the history before it followed by the turns appended: no
    turn is removed, moved or changed.  The history of the engine that was
    not selected is untouched. *)
Theorem history_append_only
  (w : World) (question : string) (model : PyVal) (sv : App.Server) :
  (forall b st,
      exists suffix,
        history (snd (Engine.chat b w question st)) = history st ++ suffix)
  /\ (exists suffix,
        App.chatbot (snd (App.serve w question model sv))
        = App.chatbot sv ++ suffix)
  /\ (exists suffix,
        App.gemini_bot (snd (App.serve w question model sv))
        = App.gemini_bot sv ++ suffix).
Proof.
  split; [intros b st; apply extends_chat|].
  unfold App.serve.
  set (bot := Engine.select model).
  destruct (extends_chat bot w question (App.state_of bot sv))
    as [suffix H].
  destruct (Engine.chat bot w question _) as [r st'].
  unfold App.state_of in H. cbn [snd history] in H.
  destruct bot; cbn [snd App.chatbot App.gemini_bot App.history_of] in *.
  - split; [exists suffix; exact H | exists []; now rewrite app_nil_r].
  - split; [exists []; now rewrite app_nil_r | exists suffix; exact H].
Qed.

(** *** C2: no record *)

(** C2, as amended.  When the store answers the query with no record,
    [chat] returns the fixed message of its engine, and the history has
    grown by one turn only, the question of the user: the message is
    returned, not recorded, and no context turn is added. *)
Theorem no_records_history
  (b : Engine.Bot) (w : World) (user_question : string) (st st1 : State) :
  Engine.executed b w user_question st [] st1 ->
  Engine.chat b w user_question st = (Ok (Engine.no_results b), st1)
  /\ history st1 = history st ++ [Engine.question_turn user_question].
Proof.
  intros Hexec.
  destruct (chat_after_execution b w user_question st st1 [] Hexec)
    as [Hchat Hhist].
  split; [|exact Hhist].
  rewrite Hchat. reflexivity.
Qed.

(** The question about Inception on a store that finds nothing. *)
Lemma no_records_history_witness :
  Engine.chat Engine.Gemini Scenario.nothing_found Scenario.question
    Scenario.start
  = (Ok (Engine.no_results Engine.Gemini),
     snd (Engine.chat Engine.Gemini Scenario.nothing_found Scenario.question
            Scenario.start))
  /\ history
       (snd (Engine.chat Engine.Gemini Scenario.nothing_found
               Scenario.question Scenario.start))
     = history Scenario.start ++ [Engine.question_turn Scenario.question].
Proof.
  apply (no_records_history Engine.Gemini Scenario.nothing_found
           Scenario.question Scenario.start
           (snd (Engine.chat Engine.Gemini Scenario.nothing_found
                   Scenario.question Scenario.start))).
  unfold Engine.executed. do 4 eexists. repeat split; reflexivity.
Defined.

(** C2, as stated, fails: on a store that finds nothing, each engine
    returns its message and its history holds the question alone, one turn
    and not two. *)
Lemma no_records_not_recorded :
  (fst (Engine.chat Engine.Deepseek Scenario.nothing_found
          Scenario.question Scenario.start)
   = Ok "Sorry, I couldn't find anything for your question."
   /\ history (snd (Engine.chat Engine.Deepseek Scenario.nothing_found
                      Scenario.question Scenario.start))
      = [Engine.question_turn Scenario.question]
   /\ length (history (snd (Engine.chat Engine.Deepseek
                              Scenario.nothing_found Scenario.question
                              Scenario.start)))
      <> length (history Scenario.start) + 2)
  /\ (fst (Engine.chat Engine.Gemini Scenario.nothing_found
             Scenario.question Scenario.start)
      = Ok "Sorry, I couldn't find anything."
      /\ history (snd (Engine.chat Engine.Gemini Scenario.nothing_found
                         Scenario.question Scenario.start))
         = [Engine.question_turn Scenario.question]
      /\ length (history (snd (Engine.chat Engine.Gemini
                                 Scenario.nothing_found Scenario.question
                                 Scenario.start)))
         <> length (history Scenario.start) + 2).
Proof.
  vm_compute. repeat split; discriminate.
Qed.

(** *** C5: records and a synthesized answer *)

(** C5, as amended.  When the store answers with at least one record and
    the synthesis call returns, [chat] returns the stripped reply and the
    history has grown by exactly three turns, in this order: the question of
    the user; a context turn that carries the role "user" too, and whose
    content is the synthesis request built around the formatted block of
    results; the answer, with the role "assistant".  The turns that were
    there before are unchanged. *)
Theorem records_history
  (b : Engine.Bot) (w : World) (user_question : string) (st st1 : State)
  (records : list Row) (reply : string) :
  Engine.executed b w user_question st records st1 ->
  records <> [] ->
  Engine.synthesis_reply b w (trace st1)
    (history st1 ++ [Engine.context_turn b user_question records])
  = Ok reply ->
  exists st',
    Engine.chat b w user_question st = (Ok (PyStr.strip reply), st')
    /\ history st'
       = history st
         ++ [ Engine.question_turn user_question;
              Engine.context_turn b user_question records;
              Engine.answer_turn (PyStr.strip reply) ].
Proof.
  intros Hexec Hne Hreply.
  destruct (chat_after_execution b w user_question st st1 records Hexec)
    as [Hchat Hhist].
  rewrite Hchat.
  destruct records as [|r records]; [congruence|].
  unfold respond.
  unfold bind at 1, append_history at 1.
  unfold bind at 1, get_history at 1. cbn [history].
  unfold bind at 1, call at 1. cbn [trace history].
  rewrite Hreply.
  eexists. split; [reflexivity|].
  cbn [history]. rewrite Hhist.
  rewrite <- !app_assoc. reflexivity.
Qed.

(** One record for the question about Inception, answered by Gemini. *)
Lemma records_history_witness :
  exists st',
    Engine.chat Engine.Gemini
      (Scenario.world Scenario.rating_query (Ok [Scenario.rating_row])
         " The rating is 8.8. ")
      Scenario.question Scenario.start
    = (Ok (PyStr.strip " The rating is 8.8. "), st')
    /\ history st'
       = history Scenario.start
         ++ [ Engine.question_turn Scenario.question;
              Engine.context_turn Engine.Gemini Scenario.question
                [Scenario.rating_row];
              Engine.answer_turn (PyStr.strip " The rating is 8.8. ") ].
Proof.
  apply (records_history Engine.Gemini
           (Scenario.world Scenario.rating_query (Ok [Scenario.rating_row])
              " The rating is 8.8. ")
           Scenario.question Scenario.start
           {| history := [Engine.question_turn Scenario.question];
              trace :=
                [ EvGenerate
                    (GeminiMovieChatbot.cypher_prompt Scenario.question);
                  EvSessionOpen;
                  EvRun
                    (PStr "MATCH (m:Movie {title: $title}) RETURN m.rating AS rating")
                    (PDict [("title", PStr "Inception")]);
                  EvSessionClose ] |}
           [Scenario.rating_row] " The rating is 8.8. ").
  - exists (PDict
              [("query",
                PStr "MATCH (m:Movie {title: $title}) RETURN m.rating AS rating");
               ("params", PDict [("title", PStr "Inception")])]).
    exists {| history := [Engine.question_turn Scenario.question];
              trace := [EvGenerate
                          (GeminiMovieChatbot.cypher_prompt
                             Scenario.question)] |}.
    exists (PStr "MATCH (m:Movie {title: $title}) RETURN m.rating AS rating").
    exists (PDict [("title", PStr "Inception")]).
    repeat split; vm_compute; reflexivity.
  - discriminate.
  - reflexivity.
Defined.

(** C5, as stated, fails on the role of the second turn: after a question
    answered from one record, the three turns appended carry the roles
    "user", "user" and "assistant", so no turn of the history has a role
    apart from those of the user and of the assistant. *)
Lemma context_turn_has_user_role :
  map role
    (history
       (snd (Engine.chat Engine.Deepseek
               (Scenario.world Scenario.rating_query
                  (Ok [Scenario.rating_row]) "The rating is 8.8.")
               Scenario.question Scenario.start)))
  = ["user"; "user"; "assistant"]
  /\ ~ (exists turn,
          In turn
            (history
               (snd (Engine.chat Engine.Deepseek
                       (Scenario.world Scenario.rating_query
                          (Ok [Scenario.rating_row]) "The rating is 8.8.")
                       Scenario.question Scenario.start)))
          /\ role turn <> "user" /\ role turn <> "assistant").
Proof.
  split; [reflexivity|].
  intros [turn [Hin [Huser Hassistant]]].
  vm_compute in Hin.
  destruct Hin as [<- | [<- | [<- | []]]];
    solve [apply Huser; reflexivity | apply Hassistant; reflexivity].
Qed.

(** *** C7: the block depends on the question and the records only *)

Lemma respond_context
  (b : Engine.Bot) (w : World) (user_question : string)
  (records : list Row) (st : State) :
  records <> [] ->
  exists rest,
    history (snd (respond b w user_question records st))
    = history st ++ Engine.context_turn b user_question records :: rest.
Proof.
  intros Hne. destruct records as [|r records]; [congruence|].
  unfold respond.
  unfold bind at 1, append_history at 1.
  unfold bind at 1, get_history at 1. cbn [history].
  unfold bind at 1, call at 1. cbn [trace history].
  destruct (Engine.synthesis_reply b w _ _) as [reply|e].
  - exists [Engine.answer_turn (PyStr.strip reply)].
    cbn. rewrite <- app_assoc. reflexivity.
  - exists []. reflexivity.
Qed.

Lemma nth_error_middle {A} (l1 l2 : list A) (x : A) :
  nth_error (l1 ++ x :: l2) (length l1) = Some x.
Proof.
  induction l1 as [|y l1 IH]; simpl; [reflexivity | exact IH].
Qed.

(** C7.  The formatted block is a function of the question and of the
    record sequence alone.  For every question and every record sequence,
    the text the loops of either engine build is the block the
    normalization rule gives for them.  And in [chat]: take two runs on one
    question, in any two worlds and from any two histories, in which the
    store answers the same records (at least one, so that a block is
    built); the context turn each run appends after the question is the
    same turn, its text built around that block.  Neither the history, nor
    the translation, nor the outcome of the synthesis enters it. *)
Theorem normalization_deterministic
  (b : Engine.Bot) (user_question : string) (records : list Row) :
  Engine.raw_text b user_question records
  = Normalization.block user_question records
  /\ forall (w1 w2 : World) (st1 st2 x1 x2 : State),
       Engine.executed b w1 user_question st1 records x1 ->
       Engine.executed b w2 user_question st2 records x2 ->
       records <> [] ->
       nth_error (history (snd (Engine.chat b w1 user_question st1)))
                 (S (length (history st1)))
       = Some (Engine.context_turn b user_question records)
       /\ nth_error (history (snd (Engine.chat b w2 user_question st2)))
                    (S (length (history st2)))
          = Some (Engine.context_turn b user_question records)
       /\ content (Engine.context_turn b user_question records)
          = Engine.user_msg b user_question
              (Normalization.block user_question records).
Proof.
  split; [apply raw_text_block|].
  intros w1 w2 st1 st2 x1 x2 H1 H2 Hne.
  assert (Hrun : forall w st x,
             Engine.executed b w user_question st records x ->
             nth_error (history (snd (Engine.chat b w user_question st)))
                       (S (length (history st)))
             = Some (Engine.context_turn b user_question records)).
  { intros w st x Hexec.
    destruct (chat_after_execution b w user_question st x records Hexec)
      as [Hchat Hhist].
    rewrite Hchat.
    destruct (respond_context b w user_question records x Hne)
      as [rest Hrest].
    rewrite Hrest, Hhist.
    replace (S (length (history st)))
      with (length (history st ++ [Engine.question_turn user_question])).
    - apply nth_error_middle.
    - rewrite length_app. simpl. lia. }
  split; [exact (Hrun w1 st1 x1 H1)|].
  split; [exact (Hrun w2 st2 x2 H2)|].
  unfold Engine.context_turn. cbn [content].
  now rewrite raw_text_block.
Qed.

(** Two runs on the question about Inception: a fresh session, and a
    session with an earlier exchange whose model words the query and the
    answer differently; the store answers the same record to both. *)
Lemma normalization_deterministic_witness :
  nth_error
    (history
       (snd (Engine.chat Engine.Deepseek Scenario.first_world
               Scenario.question Scenario.start)))
    (S (length (history Scenario.start)))
  = Some (Engine.context_turn Engine.Deepseek Scenario.question
            [Scenario.movie_row])
  /\ nth_error
       (history
          (snd (Engine.chat Engine.Deepseek Scenario.second_world
                  Scenario.question Scenario.later)))
       (S (length (history Scenario.later)))
     = Some (Engine.context_turn Engine.Deepseek Scenario.question
               [Scenario.movie_row])
  /\ content (Engine.context_turn Engine.Deepseek Scenario.question
                [Scenario.movie_row])
     = Engine.user_msg Engine.Deepseek Scenario.question
         (Normalization.block Scenario.question [Scenario.movie_row]).
Proof.
  eapply (proj2 (normalization_deterministic Engine.Deepseek
                   Scenario.question [Scenario.movie_row])
            Scenario.first_world Scenario.second_world
            Scenario.start Scenario.later).
  - unfold Engine.executed. do 4 eexists. repeat split; reflexivity.
  - unfold Engine.executed. do 4 eexists. repeat split; reflexivity.
  - discriminate.
Defined.

(** *** C1: a translation that holds no query *)

(** [GeminiMovieChatbot.chat] tests the query: when it is absent or empty,
    the apology is returned in the state translation left, so that no
    session is opened and no query is run. *)
Lemma gemini_guards_empty_query
  (w : World) (user_question : string) (st st1 : State)
  (info query params : PyVal) :
  GeminiMovieChatbot.generate_cypher w user_question
    {| history := history st ++ [Engine.question_turn user_question];
       trace := trace st |} = (Ok info, st1) ->
  py_get info "query" PNone = Ok query ->
  py_get info "params" (PDict []) = Ok params ->
  truthy query = false ->
  GeminiMovieChatbot.chat w user_question st
  = (Ok GeminiMovieChatbot.no_query, st1).
Proof.
  intros Hgen Hq Hp Hfalsy.
  unfold GeminiMovieChatbot.chat.
  unfold bind at 1, append_history at 1.
  unfold Engine.question_turn in Hgen.
  unfold bind at 1. rewrite Hgen.
  unfold bind at 1, lift at 1. rewrite Hq.
  unfold bind at 1, lift at 1. rewrite Hp.
  rewrite Hfalsy. reflexivity.
Qed.

(** [MovieChatbot.chat] does not: whatever the translation holds, it opens
    a session and runs what [info.get('query')] gave, [None] included. *)
Lemma deepseek_runs_any_query
  (w : World) (user_question : string) (st st1 : State)
  (info query params : PyVal) :
  MovieChatbot.generate_cypher w user_question
    {| history := history st ++ [Engine.question_turn user_question];
       trace := trace st |} = (Ok info, st1) ->
  py_get info "query" PNone = Ok query ->
  py_get info "params" (PDict []) = Ok params ->
  exists later,
    trace (snd (MovieChatbot.chat w user_question st))
    = trace st1 ++ EvSessionOpen :: EvRun query params :: EvSessionClose
                   :: later.
Proof.
  intros Hgen Hq Hp.
  unfold MovieChatbot.chat.
  unfold bind at 1, append_history at 1.
  unfold Engine.question_turn in Hgen.
  unfold bind at 1. rewrite Hgen.
  unfold bind at 1, lift at 1. rewrite Hq.
  unfold bind at 1, lift at 1. rewrite Hp.
  unfold bind at 1, with_session at 1, bind at 1, emit at 1, call at 1.
  cbn [trace history].
  destruct (run w _ query params) as [records|e].
  - destruct records as [|r records].
    + exists []. cbn. rewrite <- !app_assoc. reflexivity.
    + unfold bind at 1, append_history at 1.
      unfold bind at 1, get_history at 1.
      unfold bind at 1, call at 1. cbn [trace history].
      destruct (completion w _ _) as [reply|e].
      * eexists. cbn. rewrite <- !app_assoc. reflexivity.
      * eexists. cbn. rewrite <- !app_assoc. reflexivity.
  - exists []. cbn. rewrite <- !app_assoc. reflexivity.
Qed.

(** C1, on the code.  The model replies with an empty JSON object, a
    translation with no query.  [GeminiMovieChatbot.chat] returns its
    apology and calls nothing after the model.  [MovieChatbot.chat] opens a
    session and runs [None] as the query; the driver refuses it, the
    exception leaves [chat], and the route answers with the text of the
    exception instead of the apology. *)
Theorem deepseek_runs_absent_query :
  Engine.chat Engine.Gemini Scenario.no_query_world Scenario.question
    Scenario.start
  = (Ok "Sorry, couldn't generate query.",
     {| history := [Engine.question_turn Scenario.question];
        trace := [EvGenerate
                    (GeminiMovieChatbot.cypher_prompt Scenario.question)] |})
  /\ Engine.chat Engine.Deepseek Scenario.no_query_world Scenario.question
       Scenario.start
     = (Raise {| exn_class := "ValueError";
                 exn_msg := "Cannot run an empty query" |},
        {| history := [Engine.question_turn Scenario.question];
           trace :=
             [ EvCompletion
                 [ {| role := "system";
                      content :=
                        MovieChatbot.cypher_prompt Scenario.question |} ];
               EvSessionOpen;
               EvRun PNone (PDict []);
               EvSessionClose ] |})
  /\ fst (App.serve Scenario.no_query_world Scenario.question
            (PStr "deepseek") Scenario.server)
     = "Sorry, I had a problem: Cannot run an empty query".
Proof.
  repeat split; vm_compute; reflexivity.
Qed.

(** *** C4: the parsing of the reply by [generate_cypher] *)

(** A reply made of one line that opens with a fence: the first step
    removes the line, and the second indexes an empty list. *)
Lemma strip_fences_lone_fence (b : Engine.Bot) (raw : string) (st : State) :
  PyStr.startswith raw fence = true ->
  PyStr.splitlines raw = [raw] ->
  match b with
  | Engine.Deepseek => MovieChatbot.strip_fences raw st
  | Engine.Gemini => GeminiMovieChatbot.strip_fences raw st
  end = (Raise IndexError, st).
Proof.
  intros Hfence Hlines.
  destruct b;
    [unfold MovieChatbot.strip_fences | unfold GeminiMovieChatbot.strip_fences];
    rewrite Hfence, Hlines;
    unfold bind at 1, lift at 1; rewrite index_first;
    rewrite Hfence; reflexivity.
Qed.

(** The guarded stripping of [understand_question] returns on the same
    text. *)
Lemma strip_fences_guarded_lone_fence (raw : string) (st : State) :
  PyStr.startswith raw fence = true ->
  PyStr.splitlines raw = [raw] ->
  MovieChatbot.strip_fences_guarded raw st = (Ok "", st).
Proof.
  intros Hfence Hlines.
  unfold MovieChatbot.strip_fences_guarded.
  rewrite Hfence, Hlines.
  unfold bind at 1. unfold bind at 1, lift at 1. rewrite index_first.
  rewrite Hfence. reflexivity.
Qed.

(** C4, on the code.  The model replies with an opening fence and nothing
    else.  In both engines [generate_cypher] raises [IndexError] while it
    strips the fences, before any parsing: it yields no empty query, and
    the exception reaches the route.  On a fenced reply that is not JSON it
    does return the empty dictionary. *)
Theorem generate_cypher_raises_on_lone_fence :
  fst (MovieChatbot.generate_cypher Scenario.lone_fence_world
         Scenario.question Scenario.start)
  = Raise {| exn_class := "IndexError";
             exn_msg := "list index out of range" |}
  /\ fst (GeminiMovieChatbot.generate_cypher Scenario.lone_fence_world
            Scenario.question Scenario.start)
     = Raise {| exn_class := "IndexError";
                exn_msg := "list index out of range" |}
  /\ fst (App.serve Scenario.lone_fence_world Scenario.question
            (PStr "gemini") Scenario.server)
     = "Sorry, I had a problem: list index out of range"
  /\ fst (GeminiMovieChatbot.generate_cypher
            (Scenario.world (text ["```json"; "{not json}"; "```"])
               (Ok []) "")
            Scenario.question Scenario.start)
     = Ok (PDict []).
Proof.
  repeat split; vm_compute; reflexivity.
Qed.

(** *** C3: what the route answers *)

Lemma append_empty_r (s : string) : (s ++ "")%string = s.
Proof.
  induction s as [|c s IH]; simpl; [reflexivity | now rewrite IH].
Qed.

(** On a body that is an object with a text question, the route is
    [serve] on that question and on the value of the [model] field. *)
Lemma chat_serves
  (w : World) (data : PyVal) (sv : App.Server)
  (question : string) (model : PyVal) :
  py_get data "question" (PStr "") = Ok (PStr question) ->
  py_get data "model" PNone = Ok model ->
  App.chat w data sv
  = Some (App.Answer (fst (App.serve w question model sv)),
          snd (App.serve w question model sv)).
Proof.
  intros Hq Hm. unfold App.chat. rewrite Hq, Hm. reflexivity.
Qed.

(** On a body that is not an object, [data.get] raises before the [try]:
    the exception leaves the route, and no bot has been called. *)
Lemma chat_raises_before_try (w : World) (data : PyVal) (sv : App.Server) :
  is_dict data = false ->
  App.chat w data sv = Some (App.Uncaught (AttributeError data "get"), sv).
Proof.
  intros H. destruct data; try discriminate H; reflexivity.
Qed.

(** Whatever the body, the route only appends to the two histories: a
    request that raises before the [try] leaves them as they were. *)
Lemma chat_keeps_histories
  (w : World) (data : PyVal) (sv sv' : App.Server) (r : App.Response) :
  App.chat w data sv = Some (r, sv') ->
  forall b, exists suffix,
    App.history_of b sv' = App.history_of b sv ++ suffix.
Proof.
  unfold App.chat.
  destruct (py_get data "question" (PStr "")) as [q|e];
    [destruct (py_get data "model" PNone) as [model|e];
     [destruct q as [ | | | |question| | ]; try discriminate|]|];
    intros H; injection H as <- <-; intros b;
    try (exists []; now rewrite app_nil_r).
  unfold App.serve.
  set (bot := Engine.select model).
  destruct (extends_chat bot w question (App.state_of bot sv))
    as [suffix H].
  destruct (Engine.chat bot w question _) as [r st'].
  unfold App.state_of in H. cbn [snd history] in H.
  destruct bot, b; cbn [snd App.chatbot App.gemini_bot App.history_of] in *;
    solve [exists suffix; exact H | exists []; now rewrite app_nil_r].
Qed.

(** C3, as amended.  For a request whose body is an object with a text
    question, what [chat] does decides the answer of the route.  When
    [chat] raises an exception of class [Exception], in translation,
    execution or synthesis, the exception is caught by the route and does
    not reach the end user; the answer is the
    fixed prefix "Sorry, I had a problem: " followed by the message of the
    exception, so the internal error text, and nothing else of the
    exception, is part of the answer.  When [chat] returns, the answer is
    what it returned. *)
Theorem route_answers
  (w : World) (data : PyVal) (sv : App.Server)
  (question : string) (model : PyVal) :
  py_get data "question" (PStr "") = Ok (PStr question) ->
  py_get data "model" PNone = Ok model ->
  match fst (Engine.chat (Engine.select model) w question
               (App.state_of (Engine.select model) sv)) with
  | Ok answer =>
      option_map fst (App.chat w data sv) = Some (App.Answer answer)
  | Raise e =>
      option_map fst (App.chat w data sv)
      = Some (App.Answer (App.problem_prefix ++ exn_msg e)%string)
      /\ contains (App.problem_prefix ++ exn_msg e)%string (exn_msg e)
  end.
Proof.
  intros Hq Hm.
  rewrite (chat_serves w data sv question model Hq Hm).
  cbn [option_map fst].
  unfold App.serve.
  destruct (Engine.chat (Engine.select model) w question
              (App.state_of (Engine.select model) sv))
    as [[answer|e] st'] eqn:Hchat; cbn [fst].
  - reflexivity.
  - split; [reflexivity|].
    exists App.problem_prefix, "".
    now rewrite append_empty_r.
Qed.

(** The request the page posts for the Gemini engine, when the store cannot
    be reached. *)
Lemma route_answers_witness :
  option_map fst
    (App.chat Scenario.store_down (Scenario.request "gemini")
       Scenario.server)
  = Some (App.Answer
            (App.problem_prefix
             ++ "Unable to retrieve routing information")%string)
  /\ contains
       (App.problem_prefix
        ++ "Unable to retrieve routing information")%string
       "Unable to retrieve routing information".
Proof.
  exact (route_answers Scenario.store_down (Scenario.request "gemini")
           Scenario.server Scenario.question (PStr "gemini")
           eq_refl eq_refl).
Defined.

(** C3, as stated, fails: when the store cannot be reached, the answer of
    the route is none of the fixed messages, and it holds the error text of
    the store. *)
Lemma route_reveals_error_text :
  option_map fst
    (App.chat Scenario.store_down (Scenario.request "gemini")
       Scenario.server)
  = Some (App.Answer
            "Sorry, I had a problem: Unable to retrieve routing information")
  /\ contains
       "Sorry, I had a problem: Unable to retrieve routing information"
       "Unable to retrieve routing information"
  /\ ~ In "Sorry, I had a problem: Unable to retrieve routing information"
          [ GeminiMovieChatbot.no_query; GeminiMovieChatbot.no_results;
            MovieChatbot.no_results; App.problem_prefix ].
Proof.
  split; [reflexivity|]. split.
  - exists "Sorry, I had a problem: ", "". reflexivity.
  - vm_compute. intros [H | [H | [H | [H | []]]]]; discriminate H.
Qed.

(** ** Further properties of the code *)

(** *** Lines and fences *)

Lemma append_assoc (a b c : string) :
  ((a ++ b) ++ c)%string = (a ++ (b ++ c))%string.
Proof.
  induction a as [|x a IH]; simpl; [reflexivity | now rewrite IH].
Qed.

Lemma rev_onto_append (s acc : string) :
  PyStr.rev_onto s acc = (PyStr.reverse s ++ acc)%string.
Proof.
  unfold PyStr.reverse. revert acc.
  induction s as [|a s IH]; intros acc; simpl; [reflexivity|].
  rewrite IH. rewrite (IH (String a "")).
  now rewrite append_assoc.
Qed.

Lemma reverse_cons (a : ascii) (s : string) :
  PyStr.reverse (String a s) = (PyStr.reverse s ++ String a "")%string.
Proof. unfold PyStr.reverse at 1. simpl. apply rev_onto_append. Qed.

(** Where no boundary starts, [splitlines] moves on by one byte. *)
Lemma splitlines_from_step (cur : string) (a : ascii) (r : string) :
  starts_break (String a r) = false ->
  PyStr.splitlines_from cur (String a r)
  = PyStr.splitlines_from (String a cur) r.
Proof.
  intros H. simpl in H.
  apply orb_false_elim in H. destruct H as [H1 H].
  simpl. rewrite H1.
  destruct r as [|b r2]; [reflexivity|].
  apply orb_false_elim in H. destruct H as [H2 H3].
  rewrite H2.
  destruct r2 as [|c r3]; [reflexivity|].
  rewrite H3. reflexivity.
Qed.

Lemma starts_break_before_nl (a : ascii) (l rest : string) :
  has_break (String a l) = false ->
  starts_break (String a (l ++ nl ++ rest)) = false.
Proof.
  intros H. simpl has_break in H.
  apply orb_false_elim in H. destruct H as [H _].
  unfold starts_break in *.
  apply orb_false_elim in H. destruct H as [H1 H].
  rewrite H1. simpl orb.
  destruct l as [|b l].
  - simpl. unfold PyStr.is_nl2, PyStr.is_nl3.
    change (PyStr.code (ascii_of_N 10)) with 10%N.
    change (10 =? 133)%N with false. change (10 =? 128)%N with false.
    rewrite !andb_false_r. simpl.
    destruct rest; reflexivity.
  - simpl. apply orb_false_elim in H. destruct H as [H2 H3].
    rewrite H2. simpl orb.
    destruct l as [|c l].
    + simpl. unfold PyStr.is_nl3.
      change (PyStr.code (ascii_of_N 10)) with 10%N.
      change (10 =? 168)%N with false. change (10 =? 169)%N with false.
      simpl. now rewrite andb_false_r.
    + simpl. exact H3.
Qed.

(** A line without boundary, ended by a newline, is read as one line. *)
Lemma splitlines_from_line (l rest cur : string) :
  one_line l ->
  PyStr.splitlines_from cur (l ++ nl ++ rest)
  = (PyStr.reverse cur ++ l)%string :: PyStr.splitlines_from "" rest.
Proof.
  unfold one_line. revert cur.
  induction l as [|a l IH]; intros cur H.
  - simpl. rewrite append_empty_r. destruct rest; reflexivity.
  - change (String a l ++ nl ++ rest)%string
      with (String a (l ++ nl ++ rest)).
    rewrite splitlines_from_step by (apply starts_break_before_nl; exact H).
    simpl has_break in H. apply orb_false_elim in H.
    rewrite IH by tauto.
    rewrite reverse_cons, append_assoc. reflexivity.
Qed.

(** The last line, when the text does not end with a newline. *)
Lemma splitlines_from_last (l cur : string) :
  one_line l ->
  (PyStr.reverse cur ++ l)%string <> "" ->
  PyStr.splitlines_from cur l = [(PyStr.reverse cur ++ l)%string].
Proof.
  unfold one_line. revert cur.
  induction l as [|a l IH]; intros cur H Hne.
  - rewrite append_empty_r in *. simpl.
    destruct cur; [exfalso; apply Hne; reflexivity | reflexivity].
  - rewrite splitlines_from_step.
    + simpl has_break in H. apply orb_false_elim in H.
      rewrite IH.
      * rewrite reverse_cons, append_assoc. reflexivity.
      * tauto.
      * rewrite reverse_cons, append_assoc. simpl.
        destruct (PyStr.reverse cur); discriminate.
    + simpl has_break in H. apply orb_false_elim in H. tauto.
Qed.

(** [splitlines] undoes [join] on lines without boundary, the last one not
    empty. *)
Lemma splitlines_text (ls : list string) (last : string) :
  Forall one_line ls -> one_line last -> last <> "" ->
  PyStr.splitlines (text (ls ++ [last])) = ls ++ [last].
Proof.
  intros Hls Hlast Hne. unfold PyStr.splitlines.
  induction Hls as [|l ls Hl Hls IH].
  - change (text ([] ++ [last])) with last.
    rewrite splitlines_from_last; [reflexivity | exact Hlast | exact Hne].
  - change (text ((l :: ls) ++ [last]))
      with (String.concat nl (l :: (ls ++ [last]))).
    destruct (ls ++ [last]) as [|x xs] eqn:E.
    + destruct ls; discriminate E.
    + change (String.concat nl (l :: x :: xs))
        with (l ++ nl ++ text (x :: xs))%string.
      rewrite splitlines_from_line by exact Hl.
      rewrite IH. simpl. now rewrite E.
Qed.

Lemma splitlines_from_head (s cur : string) :
  cur <> "" ->
  exists more tail,
    PyStr.splitlines_from cur s = (PyStr.reverse cur ++ more)%string :: tail.
Proof.
  revert cur. induction s as [|a r1 IH]; intros cur Hne.
  - exists "", []. simpl. rewrite append_empty_r.
    destruct cur; [congruence | reflexivity].
  - assert (Hnext : exists more tail,
               PyStr.splitlines_from (String a cur) r1
               = (PyStr.reverse cur ++ more)%string :: tail).
    { destruct (IH (String a cur)) as (more & tail & H); [discriminate|].
      exists (String a more), tail. rewrite H.
      now rewrite reverse_cons, append_assoc. }
    assert (Hcut : forall tail : list string,
               exists more tail',
                 PyStr.reverse cur :: tail
                 = (PyStr.reverse cur ++ more)%string :: tail').
    { intros tail. exists "", tail. now rewrite append_empty_r. }
    simpl.
    destruct (PyStr.is_nl1 a).
    + destruct r1 as [|b r2]; [apply Hcut|].
      destruct ((PyStr.code a =? 13)%N && (PyStr.code b =? 10)%N);
        apply Hcut.
    + destruct r1 as [|b r2]; [exact Hnext|].
      destruct (PyStr.is_nl2 a b); [apply Hcut|].
      destruct r2 as [|c r3]; [exact Hnext|].
      destruct (PyStr.is_nl3 a b c); [apply Hcut | exact Hnext].
Qed.

Lemma starts_with_fence (raw : string) :
  PyStr.startswith raw fence = true ->
  exists rest, raw = ("```" ++ rest)%string.
Proof.
  unfold PyStr.startswith, fence. intros H.
  apply prefix_correct in H.
  destruct raw as [|a [|b [|c r]]]; simpl in H; try discriminate H.
  injection H as Ha Hb Hc _. subst a b c. exists r. reflexivity.
Qed.

(** The first line of a text that opens with a fence opens with it. *)
Lemma splitlines_fenced_head (raw : string) :
  PyStr.startswith raw fence = true ->
  exists l tail,
    PyStr.splitlines raw = l :: tail /\ PyStr.startswith l fence = true.
Proof.
  intros H. destruct (starts_with_fence raw H) as [rest ->].
  unfold PyStr.splitlines.
  change ("```" ++ rest)%string with (String "`" (String "`" (String "`" rest))).
  assert (Hb : forall r, starts_break (String "`" r) = false).
  { intros r. destruct r as [|b [|c r]]; reflexivity. }
  rewrite !splitlines_from_step by apply Hb.
  destruct (splitlines_from_head rest "```") as (more & tail & Hs);
    [discriminate|].
  rewrite Hs. exists (PyStr.reverse "```" ++ more)%string, tail.
  split; [reflexivity|].
  apply prefix_correct. destruct more; reflexivity.
Qed.

Lemma prefix_append (p s t : string) :
  String.prefix p s = true -> String.prefix p (s ++ t) = true.
Proof.
  revert s. induction p as [|a p IH]; intros s H.
  - destruct (s ++ t)%string; reflexivity.
  - destruct s as [|b s]; [discriminate H|].
    simpl in *. destruct (ascii_dec a b); [apply IH; exact H | exact H].
Qed.

Lemma index_snoc {A} (l : list A) (x : A) : index (l ++ [x]) (-1) = Ok x.
Proof.
  unfold index.
  change (-1 <? 0)%Z with true; cbv iota.
  rewrite length_app. simpl length.
  replace ((0 <=? -1 + Z.of_nat (length l + 1))
           && (-1 + Z.of_nat (length l + 1) <? Z.of_nat (length l + 1)))%Z
    with true.
  - replace (Z.to_nat (-1 + Z.of_nat (length l + 1))) with (length l) by lia.
    now rewrite nth_error_middle.
  - symmetry. apply andb_true_intro. split.
    + apply Z.leb_le. lia.
    + apply Z.ltb_lt. lia.
Qed.

Lemma drop_last_snoc {A} (l : list A) (x : A) : drop_last (l ++ [x]) = l.
Proof.
  unfold drop_last. rewrite length_app. simpl length.
  replace (length l + 1 - 1) with (length l) by lia.
  rewrite firstn_app. rewrite firstn_all.
  replace (length l - length l) with 0 by lia.
  simpl. now rewrite app_nil_r.
Qed.

(** X1.  A fenced block is unwrapped exactly: for a reply made of an
    opening fence line, any number of lines and a closing fence line, the
    stripping of [generate_cypher] (both engines) and that of
    [understand_question] return the lines in between, joined by newlines,
    whatever those lines hold. *)
Theorem fence_strip_unwraps
  (b : Engine.Bot) (opening closing : string) (body : list string)
  (st : State) :
  PyStr.startswith opening fence = true ->
  PyStr.startswith closing fence = true ->
  one_line opening -> one_line closing -> Forall one_line body ->
  fence_strip b (text (opening :: body ++ [closing])) st
  = (Ok (text body), st)
  /\ MovieChatbot.strip_fences_guarded
       (text (opening :: body ++ [closing])) st
     = (Ok (text body), st).
Proof.
  intros Hopen Hclose Lopen Lclose Lbody.
  assert (Hne : closing <> "") by (intros ->; discriminate Hclose).
  assert (Hlines : PyStr.splitlines (text (opening :: body ++ [closing]))
                   = opening :: body ++ [closing]).
  { change (opening :: body ++ [closing])
      with ((opening :: body) ++ [closing]).
    apply splitlines_text; auto. }
  assert (Hstart : PyStr.startswith (text (opening :: body ++ [closing]))
                     fence = true).
  { unfold text, PyStr.join.
    destruct (body ++ [closing]) as [|x xs] eqn:E.
    - destruct body; discriminate E.
    - change (String.concat nl (opening :: x :: xs))
        with (opening ++ (nl ++ String.concat nl (x :: xs)))%string.
      apply prefix_append. exact Hopen. }
  assert (Hrun : forall body',
             body' = body ++ [closing] ->
             (last <- lift (index body' (-1)) ;;
              ret (PyStr.join nl
                     (if PyStr.startswith last fence then drop_last body'
                      else body'))) st
             = (Ok (text body), st)).
  { intros body' ->. unfold bind, lift. rewrite index_snoc.
    rewrite Hclose, drop_last_snoc. reflexivity. }
  split.
  - destruct b; cbn [fence_strip];
      [unfold MovieChatbot.strip_fences
      | unfold GeminiMovieChatbot.strip_fences];
      rewrite Hstart, Hlines;
      unfold bind at 1, lift at 1; rewrite index_first, Hopen;
      cbn [drop_first skipn];
      apply (Hrun (body ++ [closing]) eq_refl).
  - unfold MovieChatbot.strip_fences_guarded.
    rewrite Hstart, Hlines.
    unfold bind at 1. unfold bind at 1, lift at 1.
    rewrite index_first, Hopen. unfold ret at 1.
    cbn [drop_first skipn].
    destruct (body ++ [closing]) as [|x xs] eqn:E.
    + destruct body; discriminate E.
    + cbv iota. rewrite <- E. unfold bind, lift, ret.
      rewrite index_snoc, Hclose, drop_last_snoc. reflexivity.
Qed.

(** The translation of the question about Inception, in a fenced block. *)
Lemma fence_strip_unwraps_witness :
  fence_strip Engine.Gemini
    (text ("```json" :: ["{"; Scenario.rating_query; "}"] ++ ["```"]))
    Scenario.start
  = (Ok (text ["{"; Scenario.rating_query; "}"]), Scenario.start)
  /\ MovieChatbot.strip_fences_guarded
       (text ("```json" :: ["{"; Scenario.rating_query; "}"] ++ ["```"]))
       Scenario.start
     = (Ok (text ["{"; Scenario.rating_query; "}"]), Scenario.start).
Proof.
  apply (fence_strip_unwraps Engine.Gemini "```json" "```"
           ["{"; Scenario.rating_query; "}"] Scenario.start).
  - reflexivity.
  - reflexivity.
  - reflexivity.
  - reflexivity.
  - repeat constructor.
Defined.

Lemma fence_strip_cases
  (b : Engine.Bot) (raw : string) (st : State) :
  exists r,
    MovieChatbot.strip_fences_guarded raw st = (Ok r, st)
    /\ (lone_fence raw ->
        r = "" /\ fence_strip b raw st = (Raise IndexError, st))
    /\ (~ lone_fence raw -> fence_strip b raw st = (Ok r, st)).
Proof.
  unfold lone_fence.
  assert (Hsame : fence_strip b = MovieChatbot.strip_fences)
    by (destruct b; reflexivity).
  rewrite Hsame. clear Hsame.
  unfold MovieChatbot.strip_fences_guarded, MovieChatbot.strip_fences.
  destruct (PyStr.startswith raw fence) eqn:Hfence.
  - destruct (splitlines_fenced_head raw Hfence) as (l & tail & Hl & Hlf).
    rewrite Hl.
    unfold bind, lift, ret.
    rewrite !index_first, !Hlf. cbn [drop_first skipn].
    destruct tail as [|t ts].
    + exists "". split; [reflexivity|]. split.
      * intros _. split; reflexivity.
      * intros Hn. exfalso. apply Hn. split; reflexivity.
    + destruct (index_last t ts) as [z Hz].
      rewrite !Hz.
      eexists. split; [reflexivity|]. split.
      * intros [_ Hlen]. discriminate Hlen.
      * intros _. reflexivity.
  - exists raw. split; [reflexivity|]. split.
    + intros [Habs _]. discriminate Habs.
    + intros _. reflexivity.
Qed.

(** X2.  The stripping of [generate_cypher] and the guarded stripping of
    [understand_question] differ on one kind of reply only.  On a reply
    that opens with a fence and holds a single line, the guarded one
    returns the empty text while [generate_cypher], in both engines, raises
    [IndexError]; on every other reply both return, with the same text.
    Neither touches the state. *)
Theorem fence_strip_vs_guarded
  (b : Engine.Bot) (raw : string) (st : State) :
  (lone_fence raw ->
   MovieChatbot.strip_fences_guarded raw st = (Ok "", st)
   /\ fence_strip b raw st = (Raise IndexError, st))
  /\ (~ lone_fence raw ->
      exists r,
        MovieChatbot.strip_fences_guarded raw st = (Ok r, st)
        /\ fence_strip b raw st = (Ok r, st)).
Proof.
  destruct (fence_strip_cases b raw st) as (r & Hg & Hlone & Hother).
  split.
  - intros H. destruct (Hlone H) as [-> Hraise]. split; assumption.
  - intros H. exists r. split; [exact Hg | exact (Hother H)].
Qed.

(** A lone opening fence, and an empty JSON object. *)
Lemma fence_strip_vs_guarded_witness :
  (MovieChatbot.strip_fences_guarded "```json" Scenario.start
   = (Ok "", Scenario.start)
   /\ fence_strip Engine.Deepseek "```json" Scenario.start
      = (Raise IndexError, Scenario.start))
  /\ (exists r,
        MovieChatbot.strip_fences_guarded "{}" Scenario.start
        = (Ok r, Scenario.start)
        /\ fence_strip Engine.Deepseek "{}" Scenario.start
           = (Ok r, Scenario.start)).
Proof.
  split.
  - apply (proj1 (fence_strip_vs_guarded Engine.Deepseek "```json"
                    Scenario.start)).
    split; reflexivity.
  - apply (proj2 (fence_strip_vs_guarded Engine.Deepseek "{}"
                    Scenario.start)).
    intros [H _]. discriminate H.
Defined.

(** *** The outcomes of [generate_cypher] *)

Lemma fence_strip_state (b : Engine.Bot) (raw : string) (st : State) :
  snd (fence_strip b raw st) = st.
Proof.
  destruct b; [apply strip_fences_state_deepseek
              | apply strip_fences_state_gemini].
Qed.

Lemma generate_cypher_cases
  (b : Engine.Bot) (w : World) (user_question : string) (st : State) :
  let st1 := recorded st [translation_request b user_question] in
  match translation_reply b w (trace st) user_question with
  | Raise e =>
      Engine.generate_cypher b w user_question st = (Raise e, st1)
  | Ok reply =>
      match fst (fence_strip b (PyStr.strip reply) st1) with
      | Raise e =>
          Engine.generate_cypher b w user_question st = (Raise e, st1)
      | Ok raw =>
          match Json.loads (interpreter w) raw with
          | Json.Decoded v =>
              Engine.generate_cypher b w user_question st = (Ok v, st1)
          | Json.Malformed =>
              Engine.generate_cypher b w user_question st
              = (Ok (PDict []),
                 recorded st
                   [ translation_request b user_question;
                     EvLogError (parse_error_prefix b ++ raw)%string ])
          | Json.Raised e =>
              Engine.generate_cypher b w user_question st = (Raise e, st1)
          end
      end
  end.
Proof.
  intros st1.
  assert (Hrun : Engine.generate_cypher b w user_question st
                 = match translation_reply b w (trace st) user_question with
                   | Raise e => (Raise e, st1)
                   | Ok reply =>
                       match fence_strip b (PyStr.strip reply) st1 with
                       | (Raise e, st2) => (Raise e, st2)
                       | (Ok raw, st2) =>
                           match Json.loads (interpreter w) raw with
                           | Json.Decoded v => (Ok v, st2)
                           | Json.Malformed =>
                               (Ok (PDict []),
                                recorded st2
                                  [EvLogError
                                     (parse_error_prefix b ++ raw)%string])
                           | Json.Raised e => (Raise e, st2)
                           end
                       end
                   end).
  { destruct b;
      cbv [Engine.generate_cypher MovieChatbot.generate_cypher
           GeminiMovieChatbot.generate_cypher bind call
           translation_reply fence_strip].
    - destruct (completion w _ _) as [reply|e]; [|reflexivity].
      destruct (MovieChatbot.strip_fences _ _) as [[raw|e] st2];
        [|reflexivity].
      destruct (Json.loads (interpreter w) raw); reflexivity.
    - destruct (generate_content w _ _) as [reply|e]; [|reflexivity].
      destruct (GeminiMovieChatbot.strip_fences _ _) as [[raw|e] st2];
        [|reflexivity].
      destruct (Json.loads (interpreter w) raw); reflexivity. }
  rewrite Hrun. clear Hrun.
  destruct (translation_reply b w (trace st) user_question) as [reply|e];
    [|reflexivity].
  pose proof (fence_strip_state b (PyStr.strip reply) st1) as Hst.
  destruct (fence_strip b (PyStr.strip reply) st1) as [[raw|e] st2];
    cbn [fst snd] in *; subst st2; [|reflexivity].
  destruct (Json.loads (interpreter w) raw); [reflexivity| |reflexivity].
  unfold st1, recorded. cbn [history trace].
  now rewrite <- app_assoc.
Qed.

(** X3.  All the outcomes of [generate_cypher], in both engines.  One
    request goes to the model, built from the question alone.  If the call
    raises, the exception leaves [generate_cypher].  If the reply, once
    stripped of surrounding whitespace, is a lone fence line,
    [IndexError] is raised.  Otherwise the text inside the fences (the one
    [understand_question] would parse) is given to [json.loads]: the decoded
    value is returned; or, when [json.loads] raises [JSONDecodeError], the
    empty dictionary is returned after one error entry holding the text has
    been logged; or, when [json.loads] raises anything else (the
    [ValueError] of an integer literal beyond the interpreter's digit limit,
    the [RecursionError] of containers nested beyond its recursion limit),
    that exception leaves [generate_cypher] and nothing is logged.  The
    history is never touched. *)
Theorem generate_cypher_outcome
  (b : Engine.Bot) (w : World) (user_question : string) (st : State) :
  match translation_reply b w (trace st) user_question with
  | Raise e =>
      Engine.generate_cypher b w user_question st
      = (Raise e, recorded st [translation_request b user_question])
  | Ok reply =>
      (lone_fence (PyStr.strip reply) ->
       Engine.generate_cypher b w user_question st
       = (Raise IndexError,
          recorded st [translation_request b user_question]))
      /\ (~ lone_fence (PyStr.strip reply) ->
          exists raw,
            MovieChatbot.strip_fences_guarded (PyStr.strip reply) st
            = (Ok raw, st)
            /\ match Json.loads (interpreter w) raw with
               | Json.Decoded v =>
                   Engine.generate_cypher b w user_question st
                   = (Ok v,
                      recorded st [translation_request b user_question])
               | Json.Malformed =>
                   Engine.generate_cypher b w user_question st
                   = (Ok (PDict []),
                      recorded st
                        [ translation_request b user_question;
                          EvLogError
                            (parse_error_prefix b ++ raw)%string ])
               | Json.Raised e =>
                   Engine.generate_cypher b w user_question st
                   = (Raise e,
                      recorded st [translation_request b user_question])
                   /\ decoder_exception e
               end)
  end.
Proof.
  pose proof (generate_cypher_cases b w user_question st) as H.
  cbv zeta in H.
  destruct (translation_reply b w (trace st) user_question) as [reply|e];
    [|exact H].
  set (st1 := recorded st [translation_request b user_question]) in *.
  destruct (fence_strip_cases b (PyStr.strip reply) st1)
    as (r & Hg & Hlone & Hother).
  split.
  - intros Hl. destruct (Hlone Hl) as [_ Hraise].
    rewrite Hraise in H. exact H.
  - intros Hn. exists r. split.
    + exact (strip_fences_guarded_state _ _ st1 st Hg).
    + rewrite (Hother Hn) in H. cbn [fst] in H.
      destruct (Json.loads (interpreter w) r) as [v| |e] eqn:Hparse;
        [exact H|exact H|].
      split; [exact H|exact (loads_raised _ _ _ Hparse)].
Qed.

(** A reply that is a lone fence, a fenced reply that is not JSON, and a
    reply that is an integer of 4301 digits. *)
Lemma generate_cypher_outcome_witness :
  Engine.generate_cypher Engine.Deepseek Scenario.lone_fence_world
    Scenario.question Scenario.start
  = (Raise IndexError,
     recorded Scenario.start
       [translation_request Engine.Deepseek Scenario.question])
  /\ Engine.generate_cypher Engine.Gemini
       (Scenario.world (text ["```json"; "{not json}"; "```"]) (Ok []) "")
       Scenario.question Scenario.start
     = (Ok (PDict []),
        recorded Scenario.start
          [ translation_request Engine.Gemini Scenario.question;
            EvLogError
              (parse_error_prefix Engine.Gemini ++ "{not json}")%string ])
  /\ Engine.generate_cypher Engine.Deepseek
       (Scenario.world Scenario.long_integer (Ok []) "")
       Scenario.question Scenario.start
     = (Raise (Json.digits_error 4300 4301),
        recorded Scenario.start
          [translation_request Engine.Deepseek Scenario.question]).
Proof.
  split; [|split].
  - apply (proj1 (generate_cypher_outcome Engine.Deepseek
                    Scenario.lone_fence_world Scenario.question
                    Scenario.start)).
    split; reflexivity.
  - destruct (proj2 (generate_cypher_outcome Engine.Gemini
                       (Scenario.world
                          (text ["```json"; "{not json}"; "```"])
                          (Ok []) "")
                       Scenario.question Scenario.start))
      as (raw & Hraw & H).
    + intros [_ H]. discriminate H.
    + injection Hraw as <-. exact H.
  - destruct (proj2 (generate_cypher_outcome Engine.Deepseek
                       (Scenario.world Scenario.long_integer (Ok []) "")
                       Scenario.question Scenario.start))
      as (raw & Hraw & H).
    + intros [H _]. vm_compute in H. discriminate H.
    + vm_compute in Hraw. injection Hraw as <-.
      exact (proj1 H).
Defined.

(** *** All the paths of [chat] *)

Lemma chat_is_outline
  (b : Engine.Bot) (w : World) (user_question : string) (st : State) :
  Engine.chat b w user_question st = chat_outline b w user_question st.
Proof.
  unfold chat_outline, asked, Engine.question_turn.
  destruct b; cbn [Engine.chat Engine.generate_cypher Engine.runs_query].
  - unfold MovieChatbot.chat.
    unfold bind at 1, append_history at 1. unfold bind at 1.
    destruct (MovieChatbot.generate_cypher _ _ _) as [[info|e] st1];
      [|reflexivity].
    unfold bind at 1, lift at 1.
    destruct (py_get info "query" PNone) as [query|e]; [|reflexivity].
    unfold bind at 1, lift at 1.
    destruct (py_get info "params" (PDict [])) as [params|e]; [|reflexivity].
    unfold bind at 1, with_session at 1, bind at 1, emit at 1, call at 1.
    cbn [trace history].
    unfold recorded, session_events.
    destruct (run w _ query params) as [records|e].
    + rewrite <- !app_assoc. destruct records; reflexivity.
    + rewrite <- !app_assoc. reflexivity.
  - unfold GeminiMovieChatbot.chat.
    unfold bind at 1, append_history at 1. unfold bind at 1.
    destruct (GeminiMovieChatbot.generate_cypher _ _ _) as [[info|e] st1];
      [|reflexivity].
    unfold bind at 1, lift at 1.
    destruct (py_get info "query" PNone) as [query|e]; [|reflexivity].
    unfold bind at 1, lift at 1.
    destruct (py_get info "params" (PDict [])) as [params|e]; [|reflexivity].
    destruct (truthy query); cbn [negb]; [|reflexivity].
    unfold bind at 1, with_session at 1, bind at 1, emit at 1, call at 1.
    cbn [trace history].
    unfold recorded, session_events.
    destruct (run w _ query params) as [records|e].
    + rewrite <- !app_assoc. destruct records; reflexivity.
    + rewrite <- !app_assoc. reflexivity.
Qed.

Lemma respond_cases
  (b : Engine.Bot) (w : World) (user_question : string)
  (records : list Row) (st : State) :
  respond b w user_question records st
  = match records with
    | [] => (Ok (Engine.no_results b), st)
    | _ :: _ =>
        let hist :=
          history st ++ [Engine.context_turn b user_question records] in
        match Engine.synthesis_reply b w (trace st) hist with
        | Raise e =>
            (Raise e,
             {| history := hist;
                trace := trace st ++ [Engine.synthesis_request b hist] |})
        | Ok reply =>
            (Ok (PyStr.strip reply),
             {| history := hist ++ [Engine.answer_turn (PyStr.strip reply)];
                trace := trace st ++ [Engine.synthesis_request b hist] |})
        end
    end.
Proof.
  destruct records as [|r records]; [reflexivity|].
  unfold respond.
  unfold bind at 1, append_history at 1.
  unfold bind at 1, get_history at 1. cbn [history].
  unfold bind at 1, call at 1. cbn [trace history].
  cbv zeta.
  destruct (Engine.synthesis_reply b w _ _); reflexivity.
Qed.

Lemma generate_cypher_state
  (b : Engine.Bot) (w : World) (user_question : string) (st : State) :
  snd (Engine.generate_cypher b w user_question st)
  = recorded st [translation_request b user_question]
  \/ exists msg,
       snd (Engine.generate_cypher b w user_question st)
       = recorded st [translation_request b user_question; EvLogError msg].
Proof.
  pose proof (generate_cypher_cases b w user_question st) as H.
  cbv zeta in H.
  destruct (translation_reply b w (trace st) user_question) as [reply|e].
  - destruct (fst (fence_strip b (PyStr.strip reply) _)) as [raw|e].
    + destruct (Json.loads (interpreter w) raw).
      * left. now rewrite H.
      * right. eexists. now rewrite H.
      * left. now rewrite H.
    + left. now rewrite H.
  - left. now rewrite H.
Qed.

(** X4.  What [chat] adds to the history, on every path and in both
    engines.  The question is always recorded first, also when the call
    fails.  After it comes nothing, when [chat] returns one of its fixed
    messages or raises before synthesis; the context turn alone, when the
    synthesis call raises (the turn stays in the history with no answer);
    or the context turn and the answer, exactly when a synthesized answer
    is returned. *)
Theorem chat_history_shape
  (b : Engine.Bot) (w : World) (user_question : string) (st : State) :
  exists suffix,
    history (snd (Engine.chat b w user_question st))
    = history st ++ Engine.question_turn user_question :: suffix
    /\ match fst (Engine.chat b w user_question st) with
       | Ok answer =>
           (suffix = []
            /\ (answer = Engine.no_results b
                \/ (b = Engine.Gemini
                    /\ answer = GeminiMovieChatbot.no_query)))
           \/ exists records,
                records <> []
                /\ suffix = [ Engine.context_turn b user_question records;
                              Engine.answer_turn answer ]
       | Raise _ =>
           suffix = []
           \/ exists records,
                records <> []
                /\ suffix = [Engine.context_turn b user_question records]
       end.
Proof.
  rewrite chat_is_outline. unfold chat_outline.
  pose proof (generate_cypher_history b w user_question
                (asked st user_question)) as Hh.
  destruct (Engine.generate_cypher b w user_question _) as [[info|e] st1];
    cbn [snd history asked] in Hh.
  2: { exists []. cbn [fst snd]. rewrite Hh. split; [reflexivity | now left]. }
  destruct (py_get info "query" PNone) as [query|e].
  2: { exists []. cbn [fst snd]. rewrite Hh. split; [reflexivity | now left]. }
  destruct (py_get info "params" (PDict [])) as [params|e].
  2: { exists []. cbn [fst snd]. rewrite Hh. split; [reflexivity | now left]. }
  destruct (Engine.runs_query b query) eqn:Hruns.
  2: { exists []. cbn [fst snd]. rewrite Hh. split; [reflexivity|].
       left. split; [reflexivity|]. right.
       destruct b; [discriminate Hruns | split; reflexivity]. }
  destruct (run w _ query params) as [records|e].
  2: { exists []. cbn [fst snd recorded history]. rewrite Hh.
       split; [reflexivity | now left]. }
  rewrite respond_cases.
  destruct records as [|r records].
  { exists []. cbn [fst snd recorded history]. rewrite Hh.
    split; [reflexivity|]. left. split; [reflexivity | now left]. }
  cbv zeta. cbn [recorded history trace].
  destruct (Engine.synthesis_reply b w _ _) as [reply|e];
    cbn [fst snd history].
  - exists [ Engine.context_turn b user_question (r :: records);
             Engine.answer_turn (PyStr.strip reply) ].
    rewrite Hh, <- !app_assoc. split; [reflexivity|].
    right. exists (r :: records). split; [discriminate | reflexivity].
  - exists [Engine.context_turn b user_question (r :: records)].
    rewrite Hh, <- !app_assoc. split; [reflexivity|].
    right. exists (r :: records). split; [discriminate | reflexivity].
Qed.

(** X5.  The calls [chat] makes, on every path and in both engines.  The
    first is the translation request, built from the question alone: the
    history is not part of it.  After it come at most one logged parse
    error, at most one store session, opened, used for a single query and
    released before anything else happens, whether the query succeeds or
    raises, and at most one more call to the model, made only after a
    session: nothing is retried, and no session is held during a call to
    the model. *)
Theorem chat_call_pattern
  (b : Engine.Bot) (w : World) (user_question : string) (st : State) :
  exists rest,
    trace (snd (Engine.chat b w user_question st))
    = trace st ++ translation_request b user_question :: rest
    /\ after_request rest = true.
Proof.
  rewrite chat_is_outline. unfold chat_outline.
  assert (Hst : exists log,
             trace (snd (Engine.generate_cypher b w user_question
                           (asked st user_question)))
             = trace st ++ translation_request b user_question :: log
             /\ (log = [] \/ exists msg, log = [EvLogError msg])).
  { destruct (generate_cypher_state b w user_question
                (asked st user_question)) as [H | [msg H]]; rewrite H.
    - exists []. split; [reflexivity | now left].
    - exists [EvLogError msg]. split; [reflexivity | right; now exists msg]. }
  destruct Hst as (log & Htr & Hlog).
  assert (Hpat : forall rest,
             after_translation rest = true -> after_request (log ++ rest) = true).
  { intros rest Hrest. destruct Hlog as [-> | [msg ->]].
    - simpl. destruct rest as [|[] rest]; try exact Hrest; discriminate Hrest.
    - exact Hrest. }
  destruct (Engine.generate_cypher b w user_question _) as [[info|e] st1];
    cbn [snd] in Htr.
  2: { exists (log ++ []). cbn [snd]. rewrite Htr, app_nil_r.
       split; [reflexivity|]. rewrite <- (app_nil_r log). now apply Hpat. }
  assert (Hend : forall evs,
             after_translation evs = true ->
             exists rest,
               trace st1 ++ evs
               = trace st ++ translation_request b user_question :: rest
               /\ after_request rest = true).
  { intros evs Hevs. exists (log ++ evs). rewrite Htr, <- app_assoc.
    split; [reflexivity | now apply Hpat]. }
  assert (Hstop : exists rest,
             trace st1
             = trace st ++ translation_request b user_question :: rest
             /\ after_request rest = true).
  { destruct (Hend [] eq_refl) as (rest & H & Hr).
    rewrite app_nil_r in H. now exists rest. }
  destruct (py_get info "query" PNone) as [query|e]; [|exact Hstop].
  destruct (py_get info "params" (PDict [])) as [params|e]; [|exact Hstop].
  destruct (Engine.runs_query b query); [|exact Hstop].
  destruct (run w _ query params) as [records|e].
  2: { cbn [snd recorded trace]. apply Hend. reflexivity. }
  rewrite respond_cases.
  destruct records as [|r records].
  { cbn [snd recorded trace]. apply Hend. reflexivity. }
  cbv zeta. cbn [recorded history trace].
  destruct (Engine.synthesis_reply b w _ _) as [reply|e];
    cbn [snd trace]; rewrite <- app_assoc; apply Hend;
    destruct b; reflexivity.
Qed.

(** *** Failures of the collaborators *)

(** X6.  A failure of the store passes through unchanged.  When the query
    [chat] sends raises in the store, [chat] raises that same exception;
    the session has been released; the history holds the question and
    nothing more; and the route answers with the fixed prefix followed by
    the message of the store. *)
Theorem store_failure_propagates
  (w : World) (question : string) (model : PyVal) (sv : App.Server)
  (info query params : PyVal) (st1 : State) (e : Exn) :
  Engine.generate_cypher (Engine.select model) w question
    (asked (App.state_of (Engine.select model) sv) question)
  = (Ok info, st1) ->
  py_get info "query" PNone = Ok query ->
  py_get info "params" (PDict []) = Ok params ->
  Engine.runs_query (Engine.select model) query = true ->
  run w (trace st1 ++ [EvSessionOpen]) query params = Raise e ->
  Engine.chat (Engine.select model) w question
    (App.state_of (Engine.select model) sv)
  = (Raise e, recorded st1 (session_events query params))
  /\ history st1
     = App.history_of (Engine.select model) sv
       ++ [Engine.question_turn question]
  /\ fst (App.serve w question model sv)
     = (App.problem_prefix ++ exn_msg e)%string.
Proof.
  intros Hgen Hq Hp Hruns Hrun.
  assert (Hchat : Engine.chat (Engine.select model) w question
                    (App.state_of (Engine.select model) sv)
                  = (Raise e, recorded st1 (session_events query params))).
  { rewrite chat_is_outline. unfold chat_outline.
    rewrite Hgen, Hq, Hp, Hruns, Hrun. reflexivity. }
  split; [exact Hchat|]. split.
  - pose proof (generate_cypher_history (Engine.select model) w question
                  (asked (App.state_of (Engine.select model) sv) question))
      as Hh.
    rewrite Hgen in Hh. exact Hh.
  - unfold App.serve. rewrite Hchat. reflexivity.
Qed.

(** The store cannot be reached while Gemini answers about Inception. *)
Lemma store_failure_propagates_witness :
  Engine.chat (Engine.select (PStr "gemini")) Scenario.store_down
    Scenario.question
    (App.state_of (Engine.select (PStr "gemini")) Scenario.server)
  = (Raise {| exn_class := "ServiceUnavailable";
              exn_msg := "Unable to retrieve routing information" |},
     recorded
       (recorded (asked Scenario.start Scenario.question)
          [translation_request Engine.Gemini Scenario.question])
       (session_events
          (PStr "MATCH (m:Movie {title: $title}) RETURN m.rating AS rating")
          (PDict [("title", PStr "Inception")])))
  /\ history
       (recorded (asked Scenario.start Scenario.question)
          [translation_request Engine.Gemini Scenario.question])
     = App.history_of (Engine.select (PStr "gemini")) Scenario.server
       ++ [Engine.question_turn Scenario.question]
  /\ fst (App.serve Scenario.store_down Scenario.question (PStr "gemini")
            Scenario.server)
     = (App.problem_prefix
        ++ exn_msg {| exn_class := "ServiceUnavailable";
                      exn_msg := "Unable to retrieve routing information" |})%string.
Proof.
  apply (store_failure_propagates Scenario.store_down Scenario.question
           (PStr "gemini") Scenario.server
           (PDict
              [("query",
                PStr "MATCH (m:Movie {title: $title}) RETURN m.rating AS rating");
               ("params", PDict [("title", PStr "Inception")])])
           (PStr "MATCH (m:Movie {title: $title}) RETURN m.rating AS rating")
           (PDict [("title", PStr "Inception")])).
  - reflexivity.
  - reflexivity.
  - reflexivity.
  - reflexivity.
  - reflexivity.
Defined.

(** X7.  A failure of the synthesis leaves its request in the history.
    When the store has answered at least one record and the synthesis call
    raises, [chat] raises that same exception, and the history then ends
    with the question and the context turn, with no answer after them: the
    next call on this engine sends them to the model again. *)
Theorem synthesis_failure_keeps_context
  (b : Engine.Bot) (w : World) (user_question : string) (st st1 : State)
  (records : list Row) (e : Exn) :
  Engine.executed b w user_question st records st1 ->
  records <> [] ->
  Engine.synthesis_reply b w (trace st1)
    (history st1 ++ [Engine.context_turn b user_question records])
  = Raise e ->
  exists st',
    Engine.chat b w user_question st = (Raise e, st')
    /\ history st'
       = history st
         ++ [ Engine.question_turn user_question;
              Engine.context_turn b user_question records ]
    /\ trace st'
       = trace st1
         ++ [Engine.synthesis_request b
               (history st
                ++ [ Engine.question_turn user_question;
                     Engine.context_turn b user_question records ])].
Proof.
  intros Hexec Hne Hreply.
  destruct (chat_after_execution b w user_question st st1 records Hexec)
    as [Hchat Hhist].
  rewrite Hchat, respond_cases.
  destruct records as [|r records]; [congruence|].
  cbv zeta. rewrite Hreply.
  eexists. split; [reflexivity|].
  cbn [history trace]. rewrite Hhist, <- !app_assoc. split; reflexivity.
Qed.

(** The model translates the question about Inception, then refuses the
    synthesis. *)
Lemma synthesis_failure_keeps_context_witness :
  exists st',
    Engine.chat Engine.Deepseek Scenario.synthesis_down Scenario.question
      Scenario.start
    = (Raise Scenario.rate_limited, st')
    /\ history st'
       = history Scenario.start
         ++ [ Engine.question_turn Scenario.question;
              Engine.context_turn Engine.Deepseek Scenario.question
                [Scenario.rating_row] ]
    /\ trace st'
       = trace
           (recorded
              (recorded (asked Scenario.start Scenario.question)
                 [translation_request Engine.Deepseek Scenario.question])
              (session_events
                 (PStr "MATCH (m:Movie {title: $title}) RETURN m.rating AS rating")
                 (PDict [("title", PStr "Inception")])))
         ++ [Engine.synthesis_request Engine.Deepseek
               (history Scenario.start
                ++ [ Engine.question_turn Scenario.question;
                     Engine.context_turn Engine.Deepseek Scenario.question
                       [Scenario.rating_row] ])].
Proof.
  apply (synthesis_failure_keeps_context Engine.Deepseek
           Scenario.synthesis_down Scenario.question Scenario.start
           (recorded
              (recorded (asked Scenario.start Scenario.question)
                 [translation_request Engine.Deepseek Scenario.question])
              (session_events
                 (PStr "MATCH (m:Movie {title: $title}) RETURN m.rating AS rating")
                 (PDict [("title", PStr "Inception")])))
           [Scenario.rating_row] Scenario.rate_limited).
  - unfold Engine.executed. do 4 eexists. repeat split; reflexivity.
  - discriminate.
  - reflexivity.
Defined.

(** *** The route and its two engines *)

(** X8.  How the route picks and updates its engines.  The Gemini engine
    serves the request exactly when the [model] field is the string
    "gemini"; any other value, an absent field included, goes to
    [MovieChatbot].  The engine that serves gets the history [chat] leaves;
    the history of the other engine is untouched by the request; the calls
    made are those of that one [chat]. *)
Theorem route_engine_selection
  (w : World) (question : string) (model : PyVal) (sv : App.Server) :
  (Engine.select model = Engine.Gemini <-> model = PStr "gemini")
  /\ App.history_of (Engine.select model)
       (snd (App.serve w question model sv))
     = history (snd (Engine.chat (Engine.select model) w question
                       (App.state_of (Engine.select model) sv)))
  /\ (forall b, b <> Engine.select model ->
                App.history_of b (snd (App.serve w question model sv))
                = App.history_of b sv)
  /\ App.calls (snd (App.serve w question model sv))
     = trace (snd (Engine.chat (Engine.select model) w question
                     (App.state_of (Engine.select model) sv))).
Proof.
  split.
  - unfold Engine.select, eq_str.
    destruct model as [| | | |s| |]; try (split; discriminate).
    destruct (String.eqb s "gemini") eqn:E.
    + apply String.eqb_eq in E. subst. split; reflexivity.
    + apply String.eqb_neq in E. split; [discriminate|].
      intros H. congruence.
  - unfold App.serve.
    destruct (Engine.chat (Engine.select model) w question _) as [r st'].
    cbn [snd].
    destruct (Engine.select model);
      cbn [App.history_of App.chatbot App.gemini_bot App.calls snd].
    + repeat split. intros [] H; [congruence | reflexivity].
    + repeat split. intros [] H; [reflexivity | congruence].
Qed.

(** A request for the other model leaves the history of Gemini alone. *)
Lemma route_engine_selection_witness :
  App.history_of Engine.Gemini
    (snd (App.serve Scenario.first_world Scenario.question (PStr "deepseek")
            Scenario.busy_server))
  = App.history_of Engine.Gemini Scenario.busy_server.
Proof.
  apply (proj1 (proj2 (proj2 (route_engine_selection Scenario.first_world
                                Scenario.question (PStr "deepseek")
                                Scenario.busy_server)))
           Engine.Gemini).
  discriminate.
Defined.

(** *** The intent path: [search_database] *)

Lemma search_database_run (w : World) (search_info : list (string * PyVal))
                          (st : State) :
  MovieChatbot.search_database w (PDict search_info) st
  = (if eq_str (intent_of search_info) "search_movies_by_actor" then
       actor_name <- lift (py_get (entities_of search_info)
                             "actor_name" PNone) ;;
       MovieChatbot.search_movies_by_actor w actor_name
     else if eq_str (intent_of search_info) "search_movies_by_director" then
       director_name <- lift (py_get (entities_of search_info)
                                "director_name" PNone) ;;
       MovieChatbot.search_movies_by_director w director_name
     else if eq_str (intent_of search_info) "search_movies_by_genre" then
       genre <- lift (py_get (entities_of search_info) "genre" PNone) ;;
       MovieChatbot.search_movies_by_genre w genre
     else if eq_str (intent_of search_info) "get_top_rated_movies" then
       limit <- lift (py_get (entities_of search_info) "limit" (PInt 5)) ;;
       MovieChatbot.get_top_rated_movies w limit
     else ret []) st.
Proof.
  unfold MovieChatbot.search_database, intent_of, entities_of.
  unfold bind at 1, lift at 1, py_get at 1.
  unfold bind at 1, lift at 1, py_get at 1.
  destruct (Dict.lookup "intent" search_info);
    destruct (Dict.lookup "entities" search_info); reflexivity.
Qed.

Lemma run_in_session_result (w : World) (query param : string) (v : PyVal)
                            (st : State) :
  MovieChatbot.run_in_session w query param v st
  = (run w (trace st ++ [EvSessionOpen]) (PStr query) (PDict [(param, v)]),
     recorded st (session_events (PStr query) (PDict [(param, v)]))).
Proof.
  unfold MovieChatbot.run_in_session, with_session, bind, emit, call,
    recorded, session_events.
  cbn [trace history]. rewrite <- !app_assoc. reflexivity.
Qed.

Lemma eq_str_true (v : PyVal) (tag : string) :
  eq_str v tag = true -> v = PStr tag.
Proof.
  destruct v; try discriminate. simpl. intros H.
  apply String.eqb_eq in H. now subst.
Qed.

(** X9.  What [search_database] sends to the store for each of the four
    intents.  With the intent of a branch and entities that are a
    dictionary (or absent), it opens one session, runs the fixed query of
    that branch with one parameter, bound to the entity of the branch, or
    to [None] (to 5 for the limit) when the entity is missing, and returns
    what the store answers, records or exception, after the session is
    released.  The query text never depends on the entities. *)
Theorem search_database_binds_entity
  (w : World) (search_info entities : list (string * PyVal)) (st : State)
  (tag query param : string) (default : PyVal) :
  In (tag, (query, (param, default))) dispatch_table ->
  eq_str (intent_of search_info) tag = true ->
  entities_of search_info = PDict entities ->
  MovieChatbot.search_database w (PDict search_info) st
  = (run w (trace st ++ [EvSessionOpen]) (PStr query)
       (PDict [(param, entity entities param default)]),
     recorded st
       (session_events (PStr query)
          (PDict [(param, entity entities param default)]))).
Proof.
  intros Hin Htag Hents.
  rewrite search_database_run, Hents.
  apply eq_str_true in Htag. rewrite Htag.
  unfold dispatch_table in Hin. simpl in Hin.
  destruct Hin as [H | [H | [H | [H | []]]]];
    injection H as <- <- <- <-;
    cbn [eq_str String.eqb Ascii.eqb Bool.eqb andb];
    unfold bind, lift, py_get, entity;
    destruct (Dict.lookup _ entities);
    apply run_in_session_result.
Qed.

(** A search by genre whose entities name no genre. *)
Lemma search_database_binds_entity_witness :
  MovieChatbot.search_database Scenario.nothing_found
    (PDict [("intent", PStr "search_movies_by_genre");
            ("entities", PDict [("actor_name", PStr "Tom Hanks")])])
    Scenario.start
  = (run Scenario.nothing_found (trace Scenario.start ++ [EvSessionOpen])
       (PStr MovieChatbot.genre_query)
       (PDict [("genre",
                entity [("actor_name", PStr "Tom Hanks")] "genre" PNone)]),
     recorded Scenario.start
       (session_events (PStr MovieChatbot.genre_query)
          (PDict [("genre",
                   entity [("actor_name", PStr "Tom Hanks")] "genre"
                     PNone)]))).
Proof.
  apply (search_database_binds_entity Scenario.nothing_found
           [("intent", PStr "search_movies_by_genre");
            ("entities", PDict [("actor_name", PStr "Tom Hanks")])]
           [("actor_name", PStr "Tom Hanks")] Scenario.start
           "search_movies_by_genre" MovieChatbot.genre_query "genre" PNone).
  - simpl. tauto.
  - reflexivity.
  - reflexivity.
Defined.

(** X10.  Where [search_database] raises [AttributeError] before it reaches
    the store.  It does so for a [search_info] that is not a dictionary,
    and, under a recognized intent, for entities that are present but not
    a dictionary (a JSON null, say); the state is then unchanged: no
    session, no query.  Under an intent that is not recognized the
    entities are never read, whatever they are. *)
Theorem search_database_attribute_errors
  (w : World) (st : State) :
  (forall search_info,
      is_dict search_info = false ->
      MovieChatbot.search_database w search_info st
      = (Raise (AttributeError search_info "get"), st))
  /\ (forall search_info tag,
         In tag recognized_intents ->
         eq_str (intent_of search_info) tag = true ->
         is_dict (entities_of search_info) = false ->
         MovieChatbot.search_database w (PDict search_info) st
         = (Raise (AttributeError (entities_of search_info) "get"), st))
  /\ (forall search_info,
         (forall tag, In tag recognized_intents ->
                      eq_str (intent_of search_info) tag = false) ->
         MovieChatbot.search_database w (PDict search_info) st
         = (Ok [], st)).
Proof.
  split; [|split].
  - intros search_info Hd.
    destruct search_info; try discriminate Hd; reflexivity.
  - intros search_info tag Hin Htag Hd.
    rewrite search_database_run.
    apply eq_str_true in Htag. rewrite Htag.
    simpl in Hin.
    destruct Hin as [<- | [<- | [<- | [<- | []]]]];
      cbn [eq_str String.eqb Ascii.eqb Bool.eqb andb];
      unfold bind, lift;
      destruct (entities_of search_info); try discriminate Hd; reflexivity.
  - intros search_info Hnone.
    rewrite search_database_run.
    rewrite (Hnone "search_movies_by_actor") by (simpl; tauto).
    rewrite (Hnone "search_movies_by_director") by (simpl; tauto).
    rewrite (Hnone "search_movies_by_genre") by (simpl; tauto).
    rewrite (Hnone "get_top_rated_movies") by (simpl; tauto).
    reflexivity.
Qed.

(** A list in place of the dictionary, and an actor search whose entities
    are a JSON null. *)
Lemma search_database_attribute_errors_witness :
  MovieChatbot.search_database Scenario.nothing_found
    (PList [PStr "search_movies_by_actor"]) Scenario.start
  = (Raise (AttributeError (PList [PStr "search_movies_by_actor"]) "get"),
     Scenario.start)
  /\ MovieChatbot.search_database Scenario.nothing_found
       (PDict [("intent", PStr "search_movies_by_actor");
               ("entities", PNone)])
       Scenario.start
     = (Raise
          (AttributeError
             (entities_of [("intent", PStr "search_movies_by_actor");
                           ("entities", PNone)])
             "get"),
        Scenario.start)
  /\ MovieChatbot.search_database Scenario.nothing_found
       (PDict [("intent", PStr "get_movie_details"); ("entities", PNone)])
       Scenario.start
     = (Ok [], Scenario.start).
Proof.
  split; [|split].
  - apply (proj1 (search_database_attribute_errors Scenario.nothing_found
                    Scenario.start)).
    reflexivity.
  - apply (proj1 (proj2 (search_database_attribute_errors
                           Scenario.nothing_found Scenario.start))
             [("intent", PStr "search_movies_by_actor"); ("entities", PNone)]
             "search_movies_by_actor").
    + simpl. tauto.
    + reflexivity.
    + reflexivity.
  - apply (proj2 (proj2 (search_database_attribute_errors
                           Scenario.nothing_found Scenario.start))).
    intros tag Hin. simpl in Hin.
    destruct Hin as [<- | [<- | [<- | [<- | []]]]]; reflexivity.
Defined.

(** *** What the synthesis request carries *)

Lemma contains_refl (s : string) : contains s s.
Proof. exists "", "". simpl. now rewrite append_empty_r. Qed.

Lemma contains_left (a b s : string) :
  contains a s -> contains (a ++ b)%string s.
Proof.
  intros (p & q & ->). exists p, (q ++ b)%string.
  now rewrite !append_assoc.
Qed.

Lemma contains_right (a b s : string) :
  contains b s -> contains (a ++ b)%string s.
Proof.
  intros (p & q & ->). exists (a ++ p)%string, q.
  now rewrite !append_assoc.
Qed.

Lemma contains_trans (a b c : string) :
  contains a b -> contains b c -> contains a c.
Proof.
  intros (p & q & ->) (p' & q' & ->).
  exists (p ++ p')%string, (q' ++ q)%string.
  now rewrite !append_assoc.
Qed.

Lemma contains_join (sep x : string) (l : list string) :
  In x l -> contains (PyStr.join sep l) x.
Proof.
  unfold PyStr.join.
  induction l as [|y l IH]; intros Hin; [contradiction|].
  destruct l as [|z l].
  - destruct Hin as [-> | []]. apply contains_refl.
  - change (String.concat sep (y :: z :: l))
      with (y ++ sep ++ String.concat sep (z :: l))%string.
    destruct Hin as [-> | Hin].
    + apply contains_left, contains_refl.
    + apply contains_right, contains_right, IH, Hin.
Qed.

Lemma synthesis_request_holds
  (b : Engine.Bot) (hist : list Message) (m : Message) :
  In m hist -> request_holds (Engine.synthesis_request b hist) (content m).
Proof.
  intros Hin. destruct b; cbn [Engine.synthesis_request request_holds].
  - exists m. split; [right; exact Hin | apply contains_refl].
  - unfold GeminiMovieChatbot.combined.
    apply contains_right, contains_right.
    apply contains_trans with (role m ++ ": " ++ content m)%string.
    + apply contains_join.
      apply (in_map (fun m => (role m ++ ": " ++ content m)%string)).
      exact Hin.
    + apply contains_right, contains_right, contains_refl.
Qed.

Lemma request_holds_trans (e : Event) (s t : string) :
  request_holds e s -> contains s t -> request_holds e t.
Proof.
  destruct e; cbn [request_holds]; try contradiction.
  - intros (m & Hin & Hc) Ht. exists m. split; [exact Hin|].
    now apply contains_trans with s.
  - intros Hc Ht. now apply contains_trans with s.
Qed.

Lemma context_turn_holds_block
  (b : Engine.Bot) (user_question : string) (records : list Row) :
  contains (content (Engine.context_turn b user_question records))
    (Normalization.block user_question records).
Proof.
  unfold Engine.context_turn. cbn [content].
  rewrite raw_text_block.
  assert (Hmsg : forall q t,
             Engine.user_msg b q t
             = text [ ("User question: " ++ q)%string;
                      "Database query results:"; t;
                      "Please answer the question based on these results." ])
    by (intros; destruct b; reflexivity).
  rewrite Hmsg. apply contains_join. simpl. tauto.
Qed.

Lemma synthesis_request_is_grounded_aux
  (b : Engine.Bot) (w : World) (user_question : string) (st st1 : State)
  (records : list Row) :
  Engine.executed b w user_question st records st1 ->
  records <> [] ->
  In (Engine.synthesis_request b
        (history st
         ++ [ Engine.question_turn user_question;
              Engine.context_turn b user_question records ]))
     (trace (snd (Engine.chat b w user_question st)))
  /\ (forall m, In m (history st) ->
                request_holds
                  (Engine.synthesis_request b
                     (history st
                      ++ [ Engine.question_turn user_question;
                           Engine.context_turn b user_question records ]))
                  (content m))
  /\ request_holds
       (Engine.synthesis_request b
          (history st
           ++ [ Engine.question_turn user_question;
                Engine.context_turn b user_question records ]))
       user_question
  /\ request_holds
       (Engine.synthesis_request b
          (history st
           ++ [ Engine.question_turn user_question;
                Engine.context_turn b user_question records ]))
       (Normalization.block user_question records).
Proof.
  intros Hexec Hne.
  set (hist := history st
               ++ [ Engine.question_turn user_question;
                    Engine.context_turn b user_question records ]).
  split; [|split; [|split]].
  - destruct (chat_after_execution b w user_question st st1 records Hexec)
      as [Hchat Hhist].
    rewrite Hchat, respond_cases.
    destruct records as [|r records]; [congruence|].
    cbv zeta. rewrite Hhist, <- app_assoc. cbn [app]. fold hist.
    destruct (Engine.synthesis_reply b w (trace st1) hist);
      cbn [snd trace]; apply in_or_app; right; left; reflexivity.
  - intros m Hin. apply synthesis_request_holds.
    unfold hist. apply in_or_app. now left.
  - apply (synthesis_request_holds b hist
             (Engine.question_turn user_question)).
    unfold hist. apply in_or_app. right. left. reflexivity.
  - apply request_holds_trans
      with (content (Engine.context_turn b user_question records)).
    + apply synthesis_request_holds.
      unfold hist. apply in_or_app. right. right. left. reflexivity.
    + unfold Engine.context_turn. cbn [content].
      rewrite raw_text_block.
      assert (Hmsg : forall q t,
                 Engine.user_msg b q t
                 = text [ ("User question: " ++ q)%string;
                          "Database query results:"; t;
                          "Please answer the question based on these results." ])
        by (intros; destruct b; reflexivity).
      rewrite Hmsg. apply contains_join. simpl. tauto.
Qed.


(** X11.  The synthesis is asked with everything [chat] knows.  When the
    store has answered at least one record, the request [chat] then sends
    to the model is built from the history as it stands, and it holds the
    text of every earlier turn of the session, the question, and the whole
    formatted block of results: the context of earlier exchanges and the
    records both reach the model. *)
Theorem synthesis_request_is_grounded
  (b : Engine.Bot) (w : World) (user_question : string) (st st1 : State)
  (records : list Row) :
  Engine.executed b w user_question st records st1 ->
  records <> [] ->
  In (Engine.synthesis_request b
        (history st
         ++ [ Engine.question_turn user_question;
              Engine.context_turn b user_question records ]))
     (trace (snd (Engine.chat b w user_question st)))
  /\ (forall m, In m (history st) ->
                request_holds
                  (Engine.synthesis_request b
                     (history st
                      ++ [ Engine.question_turn user_question;
                           Engine.context_turn b user_question records ]))
                  (content m))
  /\ request_holds
       (Engine.synthesis_request b
          (history st
           ++ [ Engine.question_turn user_question;
                Engine.context_turn b user_question records ]))
       user_question
  /\ request_holds
       (Engine.synthesis_request b
          (history st
           ++ [ Engine.question_turn user_question;
                Engine.context_turn b user_question records ]))
       (Normalization.block user_question records).
Proof.
  exact (synthesis_request_is_grounded_aux b w user_question st st1 records).
Qed.

(** A follow-up question in a session that already holds an exchange. *)
Lemma synthesis_request_is_grounded_witness :
  request_holds
    (Engine.synthesis_request Engine.Gemini
       (history Scenario.later
        ++ [ Engine.question_turn Scenario.question;
             Engine.context_turn Engine.Gemini Scenario.question
               [Scenario.movie_row] ]))
    (Normalization.block Scenario.question [Scenario.movie_row]).
Proof.
  assert (Hexec : exists st1,
             Engine.executed Engine.Gemini Scenario.second_world
               Scenario.question Scenario.later [Scenario.movie_row] st1).
  { unfold Engine.executed. do 5 eexists. repeat split; reflexivity. }
  destruct Hexec as [st1 Hexec].
  apply (proj2 (proj2 (proj2
           (synthesis_request_is_grounded Engine.Gemini
              Scenario.second_world Scenario.question Scenario.later st1
              [Scenario.movie_row] Hexec ltac:(discriminate))))).
Defined.

(** *** The rating of a movie *)

(** X12.  The answer of [_friendly_rating_response].  One session is
    opened, the rating query is run with the title bound as a parameter,
    and the session is released; an exception of the store is not caught.
    The rating is reported whenever the first record holds a [rating] that
    is not [None], a rating of 0 included; in every other case (no record,
    no such column, a [None] rating) the answer is the fixed apology naming
    the title.  Records after the first are ignored. *)
Theorem friendly_rating_contract
  (w : World) (items_str : list (string * Scalar) -> string)
  (title : string) (st : State) :
  match run w (trace st ++ [EvSessionOpen])
          (PStr MovieChatbot.rating_query) (rating_params title) with
  | Raise e =>
      MovieChatbot._friendly_rating_response w items_str title st
      = (Raise e,
         recorded st
           (session_events (PStr MovieChatbot.rating_query)
              (rating_params title)))
  | Ok rows =>
      exists answer,
        MovieChatbot._friendly_rating_response w items_str title st
        = (Ok answer,
           recorded st
             (session_events (PStr MovieChatbot.rating_query)
                (rating_params title)))
        /\ ((exists rating,
               rated rows rating
               /\ answer
                  = ("The rating of '" ++ title ++ "' is "
                     ++ MovieChatbot.value_str items_str rating ++ ".")%string)
            \/ ((forall rating, ~ rated rows rating)
                /\ answer = MovieChatbot.rating_not_found title))
  end.
Proof.
  set (q := PStr MovieChatbot.rating_query).
  set (p := rating_params title).
  assert (Hget : MovieChatbot.get_movie_rating w title st
                 = (match run w (trace st ++ [EvSessionOpen]) q p with
                    | Ok rows => Ok (hd_error rows)
                    | Raise e => Raise e
                    end, recorded st (session_events q p))).
  { unfold MovieChatbot.get_movie_rating, with_session, bind, emit, call,
      ret, recorded, session_events.
    cbn [trace history]. fold (rating_params title). fold q p.
    destruct (run w (trace st ++ [EvSessionOpen]) q p);
      cbn [trace history]; rewrite <- !app_assoc; reflexivity. }
  destruct (run w (trace st ++ [EvSessionOpen]) q p) as [rows|e];
    unfold MovieChatbot._friendly_rating_response;
    unfold bind at 1; rewrite Hget; clear Hget; [|reflexivity].
  assert (Hno : forall text,
             (forall rating, ~ rated rows rating) ->
             exists answer,
               (Ok text, recorded st (session_events q p))
               = (Ok answer, recorded st (session_events q p))
               /\ ((exists rating,
                      rated rows rating
                      /\ answer
                         = ("The rating of '" ++ title ++ "' is "
                            ++ MovieChatbot.value_str items_str rating
                            ++ ".")%string)
                   \/ ((forall rating, ~ rated rows rating)
                       /\ answer = text))).
  { intros text H. exists text. split; [reflexivity|]. right. now split. }
  destruct rows as [|row rest]; cbn [hd_error].
  { apply Hno. intros rating (r & rs & H & _). discriminate H. }
  destruct row as [|col row].
  { apply Hno. intros rating (r & rs & H & Hl & _).
    injection H as <- <-. discriminate Hl. }
  destruct (Dict.lookup "rating" (col :: row)) as [rating|] eqn:Hl.
  2: { apply Hno. intros rating (r & rs & H & Hl' & _).
       injection H as <- <-. congruence. }
  assert (Hyes : rating <> Plain SNone ->
                 exists answer,
                   (Ok ("The rating of '" ++ title ++ "' is "
                        ++ MovieChatbot.value_str items_str rating
                        ++ ".")%string,
                    recorded st (session_events q p))
                   = (Ok answer, recorded st (session_events q p))
                   /\ ((exists rating0,
                          rated (( col :: row) :: rest) rating0
                          /\ answer
                             = ("The rating of '" ++ title ++ "' is "
                                ++ MovieChatbot.value_str items_str rating0
                                ++ ".")%string)
                       \/ ((forall rating0,
                              ~ rated ((col :: row) :: rest) rating0)
                           /\ answer = MovieChatbot.rating_not_found title))).
  { intros Hn. eexists. split; [reflexivity|]. left. exists rating.
    split; [|reflexivity]. exists (col :: row), rest. repeat split; auto. }
  destruct rating as [[| | | | |]|props];
    try (apply Hyes; discriminate).
  apply Hno. intros rating (r & rs & H & Hl' & Hn).
  injection H as <- <-. congruence.
Qed.

(** *** The listing of search results *)

Lemma listing_loop
  (items_str : list (string * Scalar) -> string)
  (results : list Row) (lines : list string) (response : string)
  (st : State) :
  map (listed items_str) results = map Some lines ->
  MovieChatbot.for_each
    (fun response result =>
       title <- lift (MovieChatbot.record_item result "m.title") ;;
       year <- lift (MovieChatbot.record_item result "m.year") ;;
       ret (response ++ "- " ++ MovieChatbot.value_str items_str title
            ++ " (" ++ MovieChatbot.value_str items_str year ++ ")"
            ++ nl)%string)
    results response st
  = (Ok (response ++ String.concat "" lines)%string, st).
Proof.
  revert lines response.
  induction results as [|r results IH]; intros lines response Hmap.
  - destruct lines; [|discriminate Hmap].
    simpl. now rewrite append_empty_r.
  - destruct lines as [|l lines]; [discriminate Hmap|].
    cbn [map] in Hmap. injection Hmap as Hl Hmap.
    unfold listed in Hl.
    cbn [MovieChatbot.for_each].
    unfold bind at 1. unfold bind at 1, lift at 1.
    unfold MovieChatbot.record_item at 1.
    destruct (Dict.lookup "m.title" r) as [title|]; [|discriminate Hl].
    unfold bind at 1, lift at 1. unfold MovieChatbot.record_item at 1.
    destruct (Dict.lookup "m.year" r) as [year|]; [|discriminate Hl].
    unfold ret at 1.
    rewrite (IH lines) by exact Hmap.
    injection Hl as <-.
    f_equal. f_equal.
    assert (Hc : forall x xs, String.concat "" (x :: xs)
                              = (x ++ String.concat "" xs)%string).
    { intros x [|y xs]; [simpl; now rewrite append_empty_r | reflexivity]. }
    rewrite Hc. repeat (rewrite append_assoc || (progress simpl)).
    reflexivity.
Qed.

(** X13.  What [create_friendly_response] writes.  For no result it
    returns the fixed apology.  For results that all have the columns
    [m.title] and [m.year] it returns a header quoting the question,
    followed by one line per result, title and year, in the order of the
    results.  If some result lacks [m.title] while all those before it are
    complete, [KeyError] is raised and nothing is returned.  The
    [search_info] argument plays no part, and the state is not touched. *)
Theorem create_friendly_response_listing
  (items_str : list (string * Scalar) -> string)
  (user_question : string) (search_info : PyVal) (st : State) :
  MovieChatbot.create_friendly_response items_str user_question []
    search_info st
  = (Ok "Sorry, I couldn't find anything for your question.", st)
  /\ (forall results lines,
         results <> [] ->
         map (listed items_str) results = map Some lines ->
         MovieChatbot.create_friendly_response items_str user_question
           results search_info st
         = (Ok (results_header user_question ++ String.concat "" lines)%string,
            st))
  /\ (forall complete lines bad rest,
         map (listed items_str) complete = map Some lines ->
         Dict.lookup "m.title" bad = None ->
         MovieChatbot.create_friendly_response items_str user_question
           (complete ++ bad :: rest) search_info st
         = (Raise (MovieChatbot.KeyError "m.title"), st)).
Proof.
  split; [reflexivity|]. split.
  - intros results lines Hne Hmap.
    destruct results as [|r results]; [congruence|].
    unfold MovieChatbot.create_friendly_response.
    apply (listing_loop items_str (r :: results) lines). exact Hmap.
  - intros complete lines bad rest Hmap Hbad.
    assert (Hloop : forall response,
               MovieChatbot.for_each
                 (fun response result =>
                    title <- lift (MovieChatbot.record_item result "m.title") ;;
                    year <- lift (MovieChatbot.record_item result "m.year") ;;
                    ret (response ++ "- "
                         ++ MovieChatbot.value_str items_str title
                         ++ " (" ++ MovieChatbot.value_str items_str year
                         ++ ")" ++ nl)%string)
                 (complete ++ bad :: rest) response st
               = (Raise (MovieChatbot.KeyError "m.title"), st)).
    { revert lines Hmap.
      induction complete as [|r complete IH]; intros lines Hmap response.
      - cbn [app MovieChatbot.for_each].
        unfold bind at 1. unfold bind at 1, lift at 1.
        unfold MovieChatbot.record_item at 1. rewrite Hbad. reflexivity.
      - destruct lines as [|l lines]; [discriminate Hmap|].
        cbn [map] in Hmap. injection Hmap as Hl Hmap.
        unfold listed in Hl.
        cbn [app MovieChatbot.for_each].
        unfold bind at 1. unfold bind at 1, lift at 1.
        unfold MovieChatbot.record_item at 1.
        destruct (Dict.lookup "m.title" r) as [title|]; [|discriminate Hl].
        unfold bind at 1, lift at 1. unfold MovieChatbot.record_item at 1.
        destruct (Dict.lookup "m.year" r) as [year|]; [|discriminate Hl].
        unfold ret at 1. apply (IH lines Hmap). }
    unfold MovieChatbot.create_friendly_response.
    destruct (complete ++ bad :: rest) as [|x xs] eqn:E.
    + destruct complete; discriminate E.
    + apply Hloop.
Qed.

(** Two movies of an actor, and a record of the aliased columns. *)
Lemma create_friendly_response_listing_witness :
  MovieChatbot.create_friendly_response (fun _ => "")
    "What movies did Tom Hanks act in?"
    [ [("m.title", Plain (SStr "Big")); ("m.year", Plain (SInt 1988))];
      [("m.title", Plain (SStr "Cast Away")); ("m.year", Plain (SInt 2000))] ]
    PNone Scenario.start
  = (Ok (results_header "What movies did Tom Hanks act in?"
         ++ String.concat ""
              [ ("- Big (1988)" ++ nl)%string;
                ("- Cast Away (2000)" ++ nl)%string ])%string,
     Scenario.start)
  /\ MovieChatbot.create_friendly_response (fun _ => "")
       "What movies did Tom Hanks act in?"
       ([] ++ [("title", Plain (SStr "Big")); ("year", Plain (SInt 1988))]
           :: [])
       PNone Scenario.start
     = (Raise (MovieChatbot.KeyError "m.title"), Scenario.start).
Proof.
  split.
  - apply (proj1 (proj2 (create_friendly_response_listing (fun _ => "")
                           "What movies did Tom Hanks act in?" PNone
                           Scenario.start))).
    + discriminate.
    + reflexivity.
  - apply (proj2 (proj2 (create_friendly_response_listing (fun _ => "")
                           "What movies did Tom Hanks act in?" PNone
                           Scenario.start))
             [] [] [("title", Plain (SStr "Big")); ("year", Plain (SInt 1988))]
             []).
    + reflexivity.
    + reflexivity.
Defined.

(** *** From one call to the next *)

(** X14.  A follow-up question is answered with the previous exchange in
    view.  After a call of [chat] that returned a synthesized answer, a
    second call on the same engine whose query finds records sends a
    synthesis request that holds the first question, the block of results
    of the first call and the first answer, beside its own question and
    results. *)
Theorem follow_up_carries_previous_exchange
  (b : Engine.Bot) (w : World) (q1 q2 : string) (st x1 x2 : State)
  (r1 r2 : list Row) (reply1 : string) :
  Engine.executed b w q1 st r1 x1 ->
  r1 <> [] ->
  Engine.synthesis_reply b w (trace x1)
    (history x1 ++ [Engine.context_turn b q1 r1]) = Ok reply1 ->
  Engine.executed b w q2 (snd (Engine.chat b w q1 st)) r2 x2 ->
  r2 <> [] ->
  exists request,
    In request
       (trace (snd (Engine.chat b w q2 (snd (Engine.chat b w q1 st)))))
    /\ request_holds request q1
    /\ request_holds request (Normalization.block q1 r1)
    /\ request_holds request (PyStr.strip reply1)
    /\ request_holds request q2
    /\ request_holds request (Normalization.block q2 r2).
Proof.
  intros Hex1 Hne1 Hreply1 Hex2 Hne2.
  assert (Hh1 : history (snd (Engine.chat b w q1 st))
                = history st
                  ++ [ Engine.question_turn q1;
                       Engine.context_turn b q1 r1;
                       Engine.answer_turn (PyStr.strip reply1) ]).
  { destruct (chat_after_execution b w q1 st x1 r1 Hex1) as [Hchat Hhist].
    rewrite Hchat, respond_cases.
    destruct r1 as [|r r1]; [congruence|].
    cbv zeta. rewrite Hreply1. cbn [snd history].
    rewrite Hhist, <- !app_assoc. reflexivity. }
  set (st2 := snd (Engine.chat b w q1 st)) in *.
  destruct (synthesis_request_is_grounded_aux b w q2 st2 x2 r2 Hex2 Hne2)
    as (Hin & Hold & Hq & Hblock).
  eexists. split; [exact Hin|].
  split; [|split; [|split; [|split]]].
  - apply (Hold (Engine.question_turn q1)).
    rewrite Hh1. apply in_or_app. right. left. reflexivity.
  - apply request_holds_trans
      with (content (Engine.context_turn b q1 r1)).
    + apply Hold. rewrite Hh1. apply in_or_app. right. right. left.
      reflexivity.
    + apply context_turn_holds_block.
  - apply (Hold (Engine.answer_turn (PyStr.strip reply1))).
    rewrite Hh1. apply in_or_app. right. right. right. left. reflexivity.
  - exact Hq.
  - exact Hblock.
Qed.

(** The rating of Inception, asked twice in a row. *)
Lemma follow_up_carries_previous_exchange_witness :
  exists request,
    In request
       (trace (snd (Engine.chat Engine.Deepseek Scenario.steady
                      "And who directed it?"
                      (snd (Engine.chat Engine.Deepseek Scenario.steady
                              Scenario.question Scenario.start)))))
    /\ request_holds request Scenario.question
    /\ request_holds request
         (Normalization.block Scenario.question [Scenario.rating_row])
    /\ request_holds request (PyStr.strip "Inception is rated 8.8.")
    /\ request_holds request "And who directed it?"
    /\ request_holds request
         (Normalization.block "And who directed it?" [Scenario.rating_row]).
Proof.
  assert (H1 : exists x1,
             Engine.executed Engine.Deepseek Scenario.steady
               Scenario.question Scenario.start [Scenario.rating_row] x1
             /\ Engine.synthesis_reply Engine.Deepseek Scenario.steady
                  (trace x1)
                  (history x1
                   ++ [Engine.context_turn Engine.Deepseek
                         Scenario.question [Scenario.rating_row]])
                = Ok "Inception is rated 8.8.").
  { eexists. split.
    - unfold Engine.executed. do 4 eexists. repeat split; reflexivity.
    - reflexivity. }
  destruct H1 as (x1 & Hex1 & Hreply1).
  assert (H2 : exists x2,
             Engine.executed Engine.Deepseek Scenario.steady
               "And who directed it?"
               (snd (Engine.chat Engine.Deepseek Scenario.steady
                       Scenario.question Scenario.start))
               [Scenario.rating_row] x2).
  { eexists. unfold Engine.executed. do 4 eexists.
    repeat split; reflexivity. }
  destruct H2 as (x2 & Hex2).
  apply (follow_up_carries_previous_exchange Engine.Deepseek Scenario.steady
           Scenario.question "And who directed it?" Scenario.start x1 x2
           [Scenario.rating_row] [Scenario.rating_row]
           "Inception is rated 8.8." Hex1 ltac:(discriminate) Hreply1 Hex2
           ltac:(discriminate)).
Defined.
